(** * The mnubo SmartObjects Go client: request pipeline and token manager

    A shallow embedding of [src/mnubo/client.go].  The Go standard
    library packages the client calls into ([compress/gzip], [net/http],
    [encoding/json], [time]) are not part of the repository: they appear
    here as interfaces ([GzipLib], [Env]) that the client code is
    parameterised over, and module [Sim] gives one executable
    implementation of each so that every statement can be run. *)

From Stdlib Require Import ZArith List Bool Lia.
From Stdlib.Strings Require Import String Ascii Byte.
Import ListNotations.
Local Open Scope string_scope.
Local Open Scope Z_scope.

(** ** Go values *)

(** [[]byte]. The nil slice and the empty slice are both [[]]. *)
Definition bytes := list byte.

Definition bytes_of (s : string) : bytes := list_byte_of_string s.
Definition string_of (b : bytes) : string := string_of_list_byte b.

(** Go [error] values, kept structured.  [Foreign] is an error built by a
    library; the other two are the [fmt.Errorf] calls of client.go:
    a prefix followed by the verb [%t] applied to an error, and a prefix
    followed by the verb [%s] applied to a byte slice, which prints the
    bytes as they are. *)
Inductive error : Type :=
| Foreign (msg : string)
| Errorf_t (prefix : string) (cause : error)
| Errorf_s (prefix : string) (arg : bytes).

(** How a Go call ends: it returns, or it panics (the run-time error
    raised by dereferencing a nil pointer is the only panic here). *)
Inductive outcome (A : Type) : Type :=
| Returns (a : A)
| Panics (why : string).
Arguments Returns {A} a.
Arguments Panics {A} why.

Definition nil_dereference : string :=
  "runtime error: invalid memory address or nil pointer dereference".

(** [defer call] around a function body: the deferred call runs when the
    body is left, and a panic in it replaces the body's result. *)
Definition defer {A B : Type} (call : outcome B) (body : outcome A) : outcome A :=
  match body with
  | Panics why => Panics why
  | Returns a => match call with
                 | Returns _ => Returns a
                 | Panics why => Panics why
                 end
  end.

(** ** compress/gzip, as the client uses it *)

(** A [*bytes.Buffer]: [Write] appends and cannot fail. *)
Definition Buffer := bytes.

Definition gzip_BestSpeed : Z := 1.

(** The calls client.go makes into compress/gzip and io/ioutil.  A writer
    method yields the writer's next state, the bytes it hands to the
    underlying buffer, and its error.  [gzip_NewReader] reads the gzip
    header and yields a reader or an error; [ReadAll] drains a reader. *)
Record GzipLib : Type := {
  gzWriter : Type;
  gzReader : Type;
  gzip_NewWriterLevel : Z -> gzWriter + error;
  gw_Write : gzWriter -> bytes -> gzWriter * bytes * option error;
  gw_Flush : gzWriter -> gzWriter * bytes * option error;
  gw_Close : gzWriter -> gzWriter * bytes * option error;
  gzip_NewReader : bytes -> gzReader + error;
  ioutil_ReadAll_gz : gzReader -> bytes + error
}.

Section Codec.
Variable lib : GzipLib.

(** [Close] of a [gzip.Reader] pointer is [return z.decompressor.Close()]: on a nil
    receiver the field access panics; its error is dropped by the
    [defer] statement otherwise. *)
Definition gr_Close (gr : option (gzReader lib)) : outcome unit :=
  match gr with
  | None => Panics nil_dereference
  | Some _ => Returns tt
  end.

(** client.go, lines 104-119. *)
Definition doGzip (w : Buffer) (data : bytes) : Buffer * option error :=
  match gzip_NewWriterLevel lib gzip_BestSpeed with
  | inr err => (w, Some err)
  | inl gw =>
      let '(gw, out, err) := gw_Write lib gw data in
      let w := (w ++ out)%list in
      match err with
      | Some err => (w, Some err)
      | None =>
          let '(gw, out, err) := gw_Flush lib gw in
          let w := (w ++ out)%list in
          match err with
          | Some err => (w, Some err)
          | None =>
              let '(_, out, err) := gw_Close lib gw in
              let w := (w ++ out)%list in
              match err with
              | Some err => (w, Some err)
              | None => (w, None)
              end
          end
      end
  end.

(** client.go, lines 121-133.  [gzip.NewReader] returns a nil reader
    together with its error, and [defer gr.Close()] is registered
    before the error is inspected. *)
Definition doGunzip (w : Buffer) (data : bytes) : outcome (Buffer * option error) :=
  match gzip_NewReader lib data with
  | inr err =>
      defer (gr_Close None) (Returns (w, Some err))
  | inl gr =>
      defer (gr_Close (Some gr))
        match ioutil_ReadAll_gz lib gr with
        | inr err => Returns (w, Some err)
        | inl ud => Returns ((w ++ ud)%list, None)
        end
  end.

(** [stream] is a complete gzip stream that inflates to [content]. *)
Definition gzip_valid (stream content : bytes) : Prop :=
  exists gr, gzip_NewReader lib stream = inl gr
          /\ ioutil_ReadAll_gz lib gr = inl content.

(** What the library promises, in the terms of the record: the level
    [BestSpeed] is accepted, writing to a buffer reports no error, and
    the bytes of a written, flushed and closed stream are a gzip stream
    that inflates to the data that was written. *)
Definition GzipLaws : Prop :=
  forall data : bytes,
  exists gw0 gw1 gw2 gw3 o1 o2 o3,
    gzip_NewWriterLevel lib gzip_BestSpeed = inl gw0
    /\ gw_Write lib gw0 data = (gw1, o1, None)
    /\ gw_Flush lib gw1 = (gw2, o2, None)
    /\ gw_Close lib gw2 = (gw3, o3, None)
    /\ gzip_valid (o1 ++ o2 ++ o3)%list data.
End Codec.

Arguments doGzip lib w data : simpl never.
Arguments doGunzip lib w data : simpl never.

(** ** encoding/base64 *)

Definition base64_alphabet : list ascii :=
  list_ascii_of_string
    "ABCDEFGHIJKLMNOPQRSTUVWXYZabcdefghijklmnopqrstuvwxyz0123456789+/".

Definition base64_digit (n : N) : ascii :=
  nth (N.to_nat (N.modulo n 64)) base64_alphabet "="%char.

(** [base64.StdEncoding.EncodeToString]: three bytes become four digits,
    and a last group of one or two bytes is padded with [=]. *)
Fixpoint base64_EncodeToString (data : bytes) : string :=
  match data with
  | [] => ""
  | [a] =>
      let n := (Byte.to_N a * 65536)%N in
      String (base64_digit (n / 262144)) (String (base64_digit (n / 4096)) "==")
  | [a; b] =>
      let n := (Byte.to_N a * 65536 + Byte.to_N b * 256)%N in
      String (base64_digit (n / 262144)) (String (base64_digit (n / 4096))
        (String (base64_digit (n / 64)) "="))
  | a :: b :: c :: rest =>
      let n := (Byte.to_N a * 65536 + Byte.to_N b * 256 + Byte.to_N c)%N in
      String (base64_digit (n / 262144)) (String (base64_digit (n / 4096))
        (String (base64_digit (n / 64)) (String (base64_digit n)
          (base64_EncodeToString rest))))
  end.

(** ** time *)

(** A [time.Time] is an instant, counted in nanoseconds from the zero
    [Time] (the value of an unset field); a [time.Duration] is a count of
    nanoseconds. *)
Definition Time := Z.
Definition Duration := Z.
Definition Time_zero : Time := 0.
Definition Time_Before (t u : Time) : bool := t <? u.
Definition Time_Add (t : Time) (d : Duration) : Time := t + d.

Definition Millisecond : Duration := 1000000.

(** [time.ParseDuration(fmt.Sprintf("%dms", n))].  The text is a signed
    decimal followed by the unit [ms]; the parser rejects it when the
    digits exceed [(1<<63-1)/1e6], that is when the count of nanoseconds
    does not fit a [Duration], and then returns the duration 0. *)
Definition ParseDuration_overflow : Z := 9223372036854.

Definition time_ParseDuration_ms (n : Z) : Duration * option error :=
  if Z.abs n <=? ParseDuration_overflow
  then (n * Millisecond, None)
  else (0, Some (Foreign "time: invalid duration")).

(** ** The client's data (client.go, lines 15-45) *)

Record CompressionConfig : Type := {
  Request : bool;
  Response : bool
}.

Record AccessToken : Type := {
  Value : string;
  TokenType : string;
  ExpiresIn : Z;
  ExpiresAt : Time;
  Scope : string;
  Jti : string
}.

Record Mnubo : Type := {
  ClientId : string;
  ClientSecret : string;
  ClientToken : string;
  Host : string;
  Token : AccessToken;        (* the field AccessToken *)
  Compression : CompressionConfig
}.

Record ClientRequest : Type := {
  authorization : string;
  method : string;
  path : string;
  contentType : string;
  payload : bytes;
  skipCompression : bool
}.

(** Zero values. *)
Definition AccessToken_zero : AccessToken :=
  {| Value := ""; TokenType := ""; ExpiresIn := 0; ExpiresAt := Time_zero;
     Scope := ""; Jti := "" |}.
Definition CompressionConfig_zero : CompressionConfig :=
  {| Request := false; Response := false |}.

Definition with_ExpiresAt (at' : AccessToken) (t : Time) : AccessToken :=
  {| Value := Value at'; TokenType := TokenType at'; ExpiresIn := ExpiresIn at';
     ExpiresAt := t; Scope := Scope at'; Jti := Jti at' |}.

Definition with_Token (m : Mnubo) (at' : AccessToken) : Mnubo :=
  {| ClientId := ClientId m; ClientSecret := ClientSecret m;
     ClientToken := ClientToken m; Host := Host m; Token := at';
     Compression := Compression m |}.

Definition with_authorization (cr : ClientRequest) (a : string) : ClientRequest :=
  {| authorization := a; method := method cr; path := path cr;
     contentType := contentType cr; payload := payload cr;
     skipCompression := skipCompression cr |}.

(** client.go, lines 52-65. *)
Definition NewClient (id secret host : string) : Mnubo :=
  {| ClientId := id; ClientSecret := secret; ClientToken := ""; Host := host;
     Token := AccessToken_zero; Compression := CompressionConfig_zero |}.

Definition NewClientWithToken (token host : string) : Mnubo :=
  {| ClientId := ""; ClientSecret := ""; ClientToken := token; Host := host;
     Token := AccessToken_zero; Compression := CompressionConfig_zero |}.

(** client.go, lines 67-69. *)
Definition isUsingStaticToken (m : Mnubo) : bool :=
  negb (ClientToken m =? "")%string.

(** ** net/http *)

(** An [http.Header], as the list of its (key, value) lines in the order
    they were added.  Keys are compared as written: Go stores them in
    canonical form, which is how [Content-Encoding], [Content-Type],
    [Authorization] and [Accept-Encoding] are written already. *)
Definition Header := list (string * string).

Definition Header_Add (h : Header) (key value : string) : Header :=
  (h ++ [(key, value)])%list.

Fixpoint Header_Get (h : Header) (key : string) : string :=
  match h with
  | [] => ""
  | (k, v) :: rest => if (k =? key)%string then v else Header_Get rest key
  end.

Record HttpRequest : Type := {
  req_Method : string;
  req_URL : string;
  req_Body : bytes;
  req_Header : Header
}.

(** An [http.Response]; [res_Body] is what [ioutil.ReadAll(res.Body)]
    yields. *)
Record HttpResponse : Type := {
  StatusCode : Z;
  res_Header : Header;
  res_Body : bytes + error
}.

Definition default_method (method : string) : string :=
  if (method =? "")%string then "GET" else method.

Definition http_StatusOK : Z := 200.
Definition http_StatusMultipleChoices : Z := 300.

(** ** The world around the client *)

(** What the remaining library calls answer.  [http_NewRequest_check]
    is the validation [http.NewRequest] performs on the method and the
    URL; [client_Do] is [(&http.Client{}).Do], which may depend on the
    requests sent before; [time_Now] gives the successive readings of the
    clock; [json_Unmarshal_AccessToken] is [json.Unmarshal] into an
    [AccessToken], which fills the target and may return an error. *)
Record Env : Type := {
  http_NewRequest_check : string -> string -> option error;
  client_Do : list HttpRequest -> HttpRequest -> HttpResponse + error;
  time_Now : nat -> Time;
  json_Unmarshal_AccessToken : bytes -> AccessToken -> AccessToken * option error
}.

(** The state a call runs in: the receiver [m], the number of clock
    readings taken, the requests handed to [client.Do] and the scopes
    [GetAccessTokenWithScope] was called with (both oldest first). *)
Record Machine : Type := {
  self : Mnubo;
  ticks : nat;
  sent : list HttpRequest;
  acquired : list string
}.

Definition Go (A : Type) : Type := Machine -> outcome A * Machine.

Definition ret {A} (a : A) : Go A := fun s => (Returns a, s).
Definition panic {A} (why : string) : Go A := fun s => (Panics why, s).
Definition bind {A B} (c : Go A) (k : A -> Go B) : Go B :=
  fun s => match c s with
           | (Returns a, s') => k a s'
           | (Panics why, s') => (Panics why, s')
           end.

Declare Scope go_scope.
Delimit Scope go_scope with go.
Notation "x <- c ;; k" := (bind c (fun x => k))
  (at level 61, c at next level, right associativity) : go_scope.
Notation "' p <- c ;; k" := (bind c (fun x => let 'p := x in k))
  (at level 61, p pattern, c at next level, right associativity) : go_scope.
Notation "c ;; k" := (bind c (fun _ => k))
  (at level 61, right associativity) : go_scope.
Local Open Scope go_scope.

Definition get_self : Go Mnubo := fun s => (Returns (self s), s).

Definition set_Token (at' : AccessToken) : Go unit :=
  fun s => (Returns tt,
            {| self := with_Token (self s) at'; ticks := ticks s;
               sent := sent s; acquired := acquired s |}).

Definition note_acquire (scope : string) : Go unit :=
  fun s => (Returns tt,
            {| self := self s; ticks := ticks s; sent := sent s;
               acquired := (acquired s ++ [scope])%list |}).

(** A pointer to a request that may be nil. *)
Definition deref {A} (p : option A) : Go A :=
  match p with
  | Some a => ret a
  | None => panic nil_dereference
  end.

Section Client.
Variable lib : GzipLib.
Variable env : Env.

Definition now : Go Time :=
  fun s => (Returns (time_Now env (ticks s)),
            {| self := self s; ticks := S (ticks s); sent := sent s;
               acquired := acquired s |}).

Definition Do (req : HttpRequest) : Go (HttpResponse + error) :=
  fun s => (Returns (client_Do env (sent s) req),
            {| self := self s; ticks := ticks s;
               sent := (sent s ++ [req])%list; acquired := acquired s |}).

(** client.go, lines 47-50. *)
Definition hasExpired (at' : AccessToken) : Go bool :=
  now <- now ;;
  ret (Time_Before (ExpiresAt at') now).

(** [http.NewRequest]: a nil request together with the error, or a
    request with an empty header; an empty method stands for GET. *)
Definition http_NewRequest (method url : string) (body : bytes)
  : option HttpRequest * option error :=
  match http_NewRequest_check env method url with
  | Some err => (None, Some err)
  | None => (Some {| req_Method := default_method method; req_URL := url;
                     req_Body := body; req_Header := [] |}, None)
  end.

(** [req.Header.Add(key, value)] on a request pointer. *)
Definition req_Header_Add (req : option HttpRequest) (key value : string)
  : Go (option HttpRequest) :=
  r <- deref req ;;
  ret (Some {| req_Method := req_Method r; req_URL := req_URL r;
               req_Body := req_Body r;
               req_Header := Header_Add (req_Header r) key value |}).

(** Lines 177-196 of [doRequest]: what is done with a response. *)
Definition read_response (res : HttpResponse) : Go (bytes * option error) :=
  match res_Body res with
  | inr err => ret ([], Some (Errorf_t "unable to read response body: " err))
  | inl body =>
      gunzipped <-
        (if (Header_Get (res_Header res) "Content-Encoding" =? "gzip")%string
         then match doGunzip lib [] body with
              | Panics why => panic why
              | Returns (_, Some err) =>
                  ret (inr (Errorf_t "unable to gunzip response: " err))
              | Returns (w, None) => ret (inl w)
              end
         else ret (inl body)) ;;
      match gunzipped with
      | inr err => ret ([], Some err)
      | inl body =>
          if (http_StatusOK <=? StatusCode res)
             && (StatusCode res <? http_StatusMultipleChoices)
          then ret (body, None)
          else ret ([], Some (Errorf_s "request Error: " body))
      end
  end.

(** Lines 149-175 of [doRequest]: the request is built, its headers are
    set, the construction error is looked at, the request is sent. *)
Definition send_request (m : Mnubo) (cr : ClientRequest) (payload : bytes)
  : Go (bytes * option error) :=
  let '(req, err) := http_NewRequest (method cr) (Host m ++ path cr) payload in
  req <- req_Header_Add req "Content-Type" (contentType cr) ;;
  req <- req_Header_Add req "X-MNUBO-SDK" "Go" ;;
  req <- (if negb (authorization cr =? "")%string
          then req_Header_Add req "Authorization" (authorization cr)
          else ret req) ;;
  req <- (if Request (Compression m)
          then req_Header_Add req "Content-Encoding" "gzip"
          else ret req) ;;
  req <- (if Response (Compression m)
          then req_Header_Add req "Accept-Encoding" "gzip"
          else ret req) ;;
  match err with
  | Some err => ret ([], Some err)
  | None =>
      req <- deref req ;;
      res <- Do req ;;
      match res with
      | inr err => ret ([], Some (Errorf_t "unable to send client request: " err))
      | inl res => read_response res
      end
  end.

(** client.go, lines 135-197. *)
Definition doRequest (cr : ClientRequest) : Go (bytes * option error) :=
  m <- get_self ;;
  if Request (Compression m) && negb (skipCompression cr)
  then
    let '(w, err) := doGzip lib [] (payload cr) in
    match err with
    | Some err => ret ([], Some (Errorf_t "unable to gzip request: " err))
    | None => send_request m cr w
    end
  else send_request m cr (payload cr).

Definition token_request (m : Mnubo) (scope : string) : ClientRequest :=
  let payload := "grant_type=client_credentials&scope=" ++ scope in
  let data := bytes_of (ClientId m ++ ":" ++ ClientSecret m) in
  {| authorization := "Basic " ++ base64_EncodeToString data;
     method := "POST";
     path := "/oauth/token";
     contentType := "application/x-www-form-urlencoded";
     skipCompression := true;
     payload := bytes_of payload |}.

(** client.go, lines 75-102.  The first step records the call in
    [acquired]; the rest follows the source. *)
Definition GetAccessTokenWithScope (scope : string)
  : Go (AccessToken * option error) :=
  note_acquire scope ;;
  m <- get_self ;;
  let cr := token_request m scope in
  let at' := AccessToken_zero in
  '(body, err) <- doRequest cr ;;
  now <- now ;;
  match err with
  | None =>
      let '(at', err) := json_Unmarshal_AccessToken env body at' in
      match err with
      | Some err => ret (at', Some (Errorf_t "unable to unmarshall body " err))
      | None =>
          let '(dur, err) := time_ParseDuration_ms (ExpiresIn at') in
          let at' := with_ExpiresAt at' (Time_Add now dur) in
          set_Token at' ;;
          ret (at', err)
      end
  | Some _ => ret (at', err)
  end.

(** client.go, lines 71-73. *)
Definition GetAccessToken : Go (AccessToken * option error) :=
  GetAccessTokenWithScope "ALL".

(** client.go, lines 199-220.  [response] is the caller's target and
    [unmarshal] is [json.Unmarshal] at the target's type. *)
Definition doRequestWithAuthentication {R : Type}
    (unmarshal : bytes -> R -> R * option error)
    (cr : ClientRequest) (response : R) : Go (R * option error) :=
  m <- get_self ;;
  authorized <-
    (if isUsingStaticToken m
     then ret (inl (with_authorization cr ("Bearer " ++ ClientToken m)))
     else
       expired <- hasExpired (Token m) ;;
       refreshed <-
         (if expired : bool
          then '(_, err) <- GetAccessToken ;; ret err
          else ret None) ;;
       match refreshed with
       | Some err => ret (inr err)
       | None =>
           m <- get_self ;;
           ret (inl (with_authorization cr ("Bearer " ++ Value (Token m))))
       end) ;;
  match authorized with
  | inr err => ret (response, Some err)
  | inl cr =>
      '(data, err) <- doRequest cr ;;
      match err with
      | Some err => ret (response, Some err)
      | None => ret (unmarshal data response)
      end
  end.

(** A sequence of authenticated calls on one client, each with its own
    request and target; a panic ends the sequence. *)
Fixpoint calls {R : Type} (unmarshal : bytes -> R -> R * option error)
    (crs : list (ClientRequest * R)) : Go unit :=
  match crs with
  | [] => ret tt
  | (cr, response) :: rest =>
      doRequestWithAuthentication unmarshal cr response ;;
      calls unmarshal rest
  end.
End Client.

(** * An executable world

    One implementation of each interface, used to run the client: a gzip
    codec that writes stored (uncompressed) deflate blocks, the checks of
    [http.NewRequest], and a JSON reader for the token response. *)
Module Sim.

Definition Z_of_byte (b : byte) : Z := Z.of_N (Byte.to_N b).

Definition byte_of_Z (z : Z) : byte :=
  match Byte.of_N (Z.to_N (z mod 256)) with
  | Some b => b
  | None => x00
  end.

(** Four bytes, least significant first. *)
Definition le32 (n : Z) : bytes :=
  [byte_of_Z n; byte_of_Z (n / 256); byte_of_Z (n / 65536);
   byte_of_Z (n / 16777216)].

Definition un_le32 (b0 b1 b2 b3 : byte) : Z :=
  Z_of_byte b0 + 256 * Z_of_byte b1 + 65536 * Z_of_byte b2
  + 16777216 * Z_of_byte b3.

(** CRC-32 (IEEE), bit by bit. *)
Definition crc32_shift (c : Z) : Z :=
  if Z.odd c then Z.lxor (Z.shiftr c 1) 3988292384 else Z.shiftr c 1.

Definition crc32_update (c : Z) (b : byte) : Z :=
  Nat.iter 8 crc32_shift (Z.lxor c (Z_of_byte b)).

Definition crc32 (data : bytes) : Z :=
  Z.lxor (fold_left crc32_update data 4294967295) 4294967295.

(** The ten header bytes the writer emits: magic, deflate, no flags,
    no modification time, the fastest-algorithm hint, unknown system. *)
Definition gz_header : bytes :=
  [x1f; x8b; x08; x00; x00; x00; x00; x00; x04; xff].

(** One stored block per byte of data; an empty stored block is the
    mark of a flush, and an empty final block ends the stream. *)
Definition stored_block (b : byte) : bytes := [x00; x01; x00; xfe; xff; b].
Definition deflate_stored (data : bytes) : bytes := flat_map stored_block data.
Definition sync_marker : bytes := [x00; x00; x00; xff; xff].
Definition final_block : bytes := [x01; x00; x00; xff; xff].

Definition gz_trailer (data : bytes) : bytes :=
  (le32 (crc32 data mod 4294967296)
   ++ le32 (Z.of_nat (List.length data) mod 4294967296))%list.

Record Writer : Type := {
  wroteHeader : bool;
  written : bytes;
  closed : bool
}.

Definition NewWriterLevel (level : Z) : Writer + error :=
  if (level <? -2) || (9 <? level)
  then inr (Foreign "gzip: invalid compression level")
  else inl {| wroteHeader := false; written := []; closed := false |}.

Definition header_if_due (gw : Writer) : bytes :=
  if wroteHeader gw then [] else gz_header.

Definition Write (gw : Writer) (p : bytes) : Writer * bytes * option error :=
  if closed gw
  then (gw, [], Some (Foreign "gzip: write to closed writer"))
  else ({| wroteHeader := true; written := (written gw ++ p)%list;
           closed := false |},
        (header_if_due gw ++ deflate_stored p)%list, None).

Definition Flush (gw : Writer) : Writer * bytes * option error :=
  if closed gw
  then (gw, [], None)
  else ({| wroteHeader := true; written := written gw; closed := false |},
        (header_if_due gw ++ sync_marker)%list, None).

Definition Close (gw : Writer) : Writer * bytes * option error :=
  if closed gw
  then (gw, [], None)
  else ({| wroteHeader := true; written := written gw; closed := true |},
        (header_if_due gw ++ final_block ++ gz_trailer (written gw))%list,
        None).

(** A reader is the stream that follows a well-formed header. *)
Definition Reader := bytes.

Definition NewReader (data : bytes) : Reader + error :=
  match data with
  | [] => inr (Foreign "EOF")
  | id1 :: id2 :: cm :: flg :: _ :: _ :: _ :: _ :: _ :: _ :: rest =>
      if Byte.eqb id1 x1f && Byte.eqb id2 x8b && Byte.eqb cm x08
      then if Byte.eqb flg x00
           then inl rest
           else inr (Foreign "gzip: header flags not supported")
      else inr (Foreign "gzip: invalid header")
  | _ => inr (Foreign "unexpected EOF")
  end.

(** Stored blocks are read until the final one; the result is the
    content read and the bytes that follow the final block. *)
Fixpoint inflate_stored (fuel : nat) (s acc : bytes) : option (bytes * bytes) :=
  match fuel with
  | O => None
  | S fuel =>
      match s with
      | hd :: l0 :: l1 :: n0 :: n1 :: rest =>
          let len := Z_of_byte l0 + 256 * Z_of_byte l1 in
          let nlen := Z_of_byte n0 + 256 * Z_of_byte n1 in
          if ((Z_of_byte hd / 2) mod 4 =? 0) && (len + nlen =? 65535)
             && (len <=? Z.of_nat (List.length rest))
          then
            let acc := (acc ++ firstn (Z.to_nat len) rest)%list in
            let rest := skipn (Z.to_nat len) rest in
            if Z.odd (Z_of_byte hd) then Some (acc, rest)
            else inflate_stored fuel rest acc
          else None
      | _ => None
      end
  end.

Definition ReadAll (gr : Reader) : bytes + error :=
  match inflate_stored (List.length gr) gr [] with
  | None => inr (Foreign "flate: corrupt input")
  | Some (ud, [c0; c1; c2; c3; s0; s1; s2; s3]) =>
      if (un_le32 c0 c1 c2 c3 =? crc32 ud mod 4294967296)
         && (un_le32 s0 s1 s2 s3 =? Z.of_nat (List.length ud) mod 4294967296)
      then inl ud
      else inr (Foreign "gzip: invalid checksum")
  | Some _ => inr (Foreign "unexpected EOF")
  end.

Definition gz : GzipLib :=
  {| gzWriter := Writer; gzReader := Reader;
     gzip_NewWriterLevel := NewWriterLevel;
     gw_Write := Write; gw_Flush := Flush; gw_Close := Close;
     gzip_NewReader := NewReader; ioutil_ReadAll_gz := ReadAll |}.

(** The checks of [http.NewRequest]: the method (default GET) is made
    of token characters, and the URL parses.  Of [url.Parse] the two
    rejections kept are a URL that starts with a colon (no scheme) and
    one that holds a control character. *)
Definition is_token_char (c : ascii) : bool :=
  let n := nat_of_ascii c in
  ((48 <=? n) && (n <=? 57) || (65 <=? n) && (n <=? 90)
   || (97 <=? n) && (n <=? 122)
   || existsb (Nat.eqb n) [33; 35; 36; 37; 38; 39; 42; 43; 45; 46; 94; 95;
                           96; 124; 126])%nat.

Definition validMethod (method : string) : bool :=
  negb (method =? "")%string
  && forallb is_token_char (list_ascii_of_string method).

Definition is_control_char (c : ascii) : bool :=
  let n := nat_of_ascii c in ((n <? 32) || (n =? 127))%nat.

Definition url_Parse_check (url : string) : option error :=
  if existsb is_control_char (list_ascii_of_string url)
  then Some (Foreign "net/url: invalid control character in URL")
  else if String.prefix ":" url
       then Some (Foreign "missing protocol scheme")
       else None.

Definition NewRequest_check (method url : string) : option error :=
  if validMethod (default_method method) then url_Parse_check url
  else Some (Foreign "net/http: invalid method").

(** A reader for the JSON of a token response: one object whose values
    are strings without escapes or integers. *)
Inductive jvalue : Type :=
| JString (s : string)
| JInt (n : Z).

Definition is_space (c : ascii) : bool :=
  existsb (Nat.eqb (nat_of_ascii c)) [32; 9; 10; 13]%nat.

Definition digit_of (c : ascii) : option Z :=
  let n := nat_of_ascii c in
  if ((48 <=? n) && (n <=? 57))%nat then Some (Z.of_nat n - 48) else None.

Fixpoint skip_space (s : list ascii) : list ascii :=
  match s with
  | c :: rest => if is_space c then skip_space rest else s
  | [] => []
  end.

Definition quote_char : ascii := ascii_of_nat 34.
Definition backslash_char : ascii := ascii_of_nat 92.
Definition minus_char : ascii := ascii_of_nat 45.

(** The characters up to the closing quote, and what follows it. *)
Fixpoint read_string (s : list ascii) : option (string * list ascii) :=
  match s with
  | [] => None
  | c :: rest =>
      if Ascii.eqb c quote_char then Some (EmptyString, rest)
      else if Ascii.eqb c "\" then None
      else match read_string rest with
           | Some (str, rest) => Some (String c str, rest)
           | None => None
           end
  end.

Fixpoint read_digits (s : list ascii) (acc : Z) : Z * list ascii :=
  match s with
  | c :: rest =>
      match digit_of c with
      | Some d => read_digits rest (10 * acc + d)
      | None => (acc, s)
      end
  | [] => (acc, [])
  end.

Definition read_value (s : list ascii) : option (jvalue * list ascii) :=
  match s with
  | c :: rest =>
      if Ascii.eqb c quote_char then
        match read_string rest with
        | Some (str, rest) => Some (JString str, rest)
        | None => None
        end
      else if Ascii.eqb c minus_char then
        match rest with
        | d :: _ => match digit_of d with
                    | Some _ => let '(n, rest) := read_digits rest 0 in
                                Some (JInt (- n), rest)
                    | None => None
                    end
        | [] => None
        end
      else match digit_of c with
           | Some _ => let '(n, rest) := read_digits s 0 in Some (JInt n, rest)
           | None => None
           end
  | [] => None
  end.

(** A member whose key names a field sets it when the value has the
    field's type; a key that names no field is skipped. *)
Definition set_field (at' : AccessToken) (key : string) (v : jvalue)
  : option AccessToken :=
  let upd val ty ein sc jt :=
    {| Value := val; TokenType := ty; ExpiresIn := ein;
       ExpiresAt := ExpiresAt at'; Scope := sc; Jti := jt |} in
  let '(val, ty, ein, sc, jt) :=
    (Value at', TokenType at', ExpiresIn at', Scope at', Jti at') in
  if (key =? "access_token")%string then
    match v with JString s => Some (upd s ty ein sc jt) | _ => None end
  else if (key =? "token_type")%string then
    match v with JString s => Some (upd val s ein sc jt) | _ => None end
  else if (key =? "expires_in")%string then
    match v with
    | JInt n => if (-9223372036854775808 <=? n) && (n <=? 9223372036854775807)
                then Some (upd val ty n sc jt) else None
    | _ => None
    end
  else if (key =? "scope")%string then
    match v with JString s => Some (upd val ty ein s jt) | _ => None end
  else if (key =? "jti")%string then
    match v with JString s => Some (upd val ty ein sc s) | _ => None end
  else Some at'.

(** The members of an object, from the opening quote of a key to the
    closing brace and the end of the input. *)
Fixpoint read_members (fuel : nat) (s : list ascii) (at' : AccessToken)
  : option AccessToken :=
  match fuel, s with
  | S fuel, c :: rest =>
      if Ascii.eqb c quote_char then
        match read_string rest with
        | Some (key, rest) =>
            match skip_space rest with
            | colon :: rest =>
                if Ascii.eqb colon ":" then
                  match read_value (skip_space rest) with
                  | Some (v, rest) =>
                      match set_field at' key v, skip_space rest with
                      | Some at', d :: rest =>
                          if Ascii.eqb d "," then
                            read_members fuel (skip_space rest) at'
                          else if Ascii.eqb d "}" then
                            match skip_space rest with
                            | [] => Some at'
                            | _ => None
                            end
                          else None
                      | _, _ => None
                      end
                  | None => None
                  end
                else None
            | [] => None
            end
        | None => None
        end
      else None
  | _, _ => None
  end.

Definition read_object (s : list ascii) (at' : AccessToken) : option AccessToken :=
  match skip_space s with
  | c :: rest =>
      if Ascii.eqb c "{" then
        match skip_space rest with
        | d :: rest' =>
            if Ascii.eqb d "}" then
              match skip_space rest' with
              | [] => Some at'
              | _ => None
              end
            else read_members (List.length rest) (d :: rest') at'
        | [] => None
        end
      else None
  | [] => None
  end.

Definition Unmarshal_AccessToken (data : bytes) (at' : AccessToken)
  : AccessToken * option error :=
  match read_object (list_ascii_of_string (string_of data)) at' with
  | Some at' => (at', None)
  | None => (at', Some (Foreign "json: cannot unmarshal the input"))
  end.

(** JSON text is written with apostrophes where the quotes go. *)
Definition json (s : string) : bytes :=
  bytes_of (string_of_list_ascii
    (map (fun c => if Ascii.eqb c "'" then quote_char else c)
         (list_ascii_of_string s))).

Definition respond (status : Z) (header : Header) (body : bytes) : HttpResponse :=
  {| StatusCode := status; res_Header := header; res_Body := inl body |}.

(** A server that answers the token request (the one with Basic
    authorization) with [token_answer] and every other request with
    [api_answer]. *)
Definition server (token_answer api_answer : HttpResponse + error)
    (_ : list HttpRequest) (req : HttpRequest) : HttpResponse + error :=
  if String.prefix "Basic " (Header_Get (req_Header req) "Authorization")
  then token_answer
  else api_answer.

Definition world (token_answer api_answer : HttpResponse + error)
    (clock : nat -> Time) : Env :=
  {| http_NewRequest_check := NewRequest_check;
     client_Do := server token_answer api_answer;
     time_Now := clock;
     json_Unmarshal_AccessToken := Unmarshal_AccessToken |}.

(** The clock starts at [t0] and advances one millisecond per reading. *)
Definition clock_from (t0 : Time) (k : nat) : Time :=
  t0 + Z.of_nat k * Millisecond.

Definition boot (m : Mnubo) : Machine :=
  {| self := m; ticks := 0; sent := []; acquired := [] |}.

(** A target that keeps the bytes it is given. *)
Definition keep (data : bytes) (_ : bytes) : bytes * option error :=
  (data, None).

Definition with_Compression (m : Mnubo) (c : CompressionConfig) : Mnubo :=
  {| ClientId := ClientId m; ClientSecret := ClientSecret m;
     ClientToken := ClientToken m; Host := Host m; Token := Token m;
     Compression := c |}.

(** Sample data. *)
Definition api_request : ClientRequest :=
  {| authorization := ""; method := "GET"; path := "/api/v3/objects";
     contentType := "application/json"; payload := json "{'x':1}";
     skipCompression := false |}.

Definition token_json : bytes :=
  json "{'access_token':'tok1','expires_in':1000,'scope':'ALL'}".

(** A token whose lifetime in milliseconds is more nanoseconds than a
    [Duration] holds. *)
Definition long_token_json : bytes :=
  json "{'access_token':'tok2','expires_in':9223372036855}".

Definition old_token : AccessToken :=
  {| Value := "tok0"; TokenType := "Bearer"; ExpiresIn := 1000;
     ExpiresAt := 7; Scope := "ALL"; Jti := "j0" |}.

(** The body [doGzip] produces for [data]. *)
Definition gzipped (data : bytes) : bytes := fst (doGzip gz [] data).

(** A world whose server gives the same answer to every request. *)
Definition always (answer : HttpResponse + error) : Env :=
  world answer answer (clock_from 5000).

(** A world whose server issues [token_json] and answers the other
    requests with an empty object. *)
Definition quiet : Env :=
  world (inl (respond 200 [] token_json)) (inl (respond 200 [] (json "{}")))
        (clock_from 5000).

Definition compressing (m : Mnubo) : Mnubo :=
  with_Compression m {| Request := true; Response := false |}.

(** The world of [quiet] with the clock started at [t0]. *)
Definition quiet_at (t0 : Time) : Env :=
  world (inl (respond 200 [] token_json)) (inl (respond 200 [] (json "{}")))
        (clock_from t0).

Definition api_host : string := "https://api.test".

(** The machine [k] clock readings later. *)
Definition later (s : Machine) (k : nat) : Machine :=
  {| self := self s; ticks := (ticks s + k)%nat; sent := sent s;
     acquired := acquired s |}.

(** More sample data: a transport that cannot connect, a response whose
    body breaks off while it is read, a gzip response with a good header
    and a broken body, and a stored token that is still valid when the
    clock of [quiet] is read. *)
Definition refused : error := Foreign "dial tcp: connection refused".

Definition truncated : HttpResponse :=
  {| StatusCode := 200; res_Header := [];
     res_Body := inr (Foreign "unexpected EOF") |}.

Definition broken_gzip : HttpResponse :=
  respond 200 [("Content-Encoding", "gzip")]
          (gz_header ++ bytes_of "broken")%list.

Definition fresh_token : AccessToken :=
  {| Value := "tok9"; TokenType := "Bearer"; ExpiresIn := 1000;
     ExpiresAt := 1000000000000; Scope := "ALL"; Jti := "j9" |}.

Definition static_client : Mnubo := NewClientWithToken "T" api_host.
Definition dynamic_client : Mnubo := NewClient "a" "b" api_host.
End Sim.

(** * Vocabulary of the statements *)

(** The header lines [doRequest] sets, in order, and the request it hands
    to the transport for a payload. *)
Definition wire_headers (m : Mnubo) (cr : ClientRequest) : Header :=
  ([("Content-Type", contentType cr); ("X-MNUBO-SDK", "Go")]
   ++ (if negb (authorization cr =? "")%string
       then [("Authorization", authorization cr)] else [])
   ++ (if Request (Compression m) then [("Content-Encoding", "gzip")] else [])
   ++ (if Response (Compression m) then [("Accept-Encoding", "gzip")] else []))%list.

Definition wire_request (m : Mnubo) (cr : ClientRequest) (body : bytes)
  : HttpRequest :=
  {| req_Method := default_method (method cr); req_URL := Host m ++ path cr;
     req_Body := body; req_Header := wire_headers m cr |}.

Definition record_sent (s : Machine) (req : HttpRequest) : Machine :=
  {| self := self s; ticks := ticks s; sent := (sent s ++ [req])%list;
     acquired := acquired s |}.

(** The body [doRequest] works with once the response is read: inflated
    when the response says gzip, as received otherwise. *)
Definition decoded_as (lib : GzipLib) (res : HttpResponse) (raw body : bytes) : Prop :=
  res_Body res = inl raw
  /\ ((Header_Get (res_Header res) "Content-Encoding" = "gzip"
       /\ gzip_valid lib raw body)
      \/ (Header_Get (res_Header res) "Content-Encoding" <> "gzip"
          /\ body = raw)).

Definition is_2xx (status : Z) : Prop := 200 <= status <= 299.

Definition bearer (token : string) (req : HttpRequest) : Prop :=
  Header_Get (req_Header req) "Authorization" = "Bearer " ++ token.

(** The machine after a call of [GetAccessTokenWithScope] is recorded,
    after one clock reading, and after a token is stored. *)
Definition noted (s : Machine) (scope : string) : Machine :=
  {| self := self s; ticks := ticks s; sent := sent s;
     acquired := (acquired s ++ [scope])%list |}.

Definition ticked (s : Machine) : Machine :=
  {| self := self s; ticks := S (ticks s); sent := sent s;
     acquired := acquired s |}.

Definition storing (s : Machine) (at' : AccessToken) : Machine :=
  {| self := with_Token (self s) at'; ticks := ticks s; sent := sent s;
     acquired := acquired s |}.

Definition token_payload (scope : string) : bytes :=
  bytes_of ("grant_type=client_credentials&scope=" ++ scope).

(** The end of [doRequestWithAuthentication]: the result of [doRequest]
    is decoded into the target, or its error is passed on with the
    target as it was. *)
Definition finish {R : Type} (unmarshal : bytes -> R -> R * option error)
    (response : R) (x : outcome (bytes * option error) * Machine)
  : outcome (R * option error) * Machine :=
  match x with
  | (Returns (data, None), s') => (Returns (unmarshal data response), s')
  | (Returns (_, Some err), s') => (Returns (response, Some err), s')
  | (Panics why, s') => (Panics why, s')
  end.

(** Two clients that differ at most in the stored token. *)
Definition same_configuration (m m' : Mnubo) : Prop :=
  ClientId m' = ClientId m /\ ClientSecret m' = ClientSecret m
  /\ ClientToken m' = ClientToken m /\ Host m' = Host m
  /\ Compression m' = Compression m.

(** * Properties *)

(** ** The executable codec keeps the library's promises *)
Module SimFacts.
Import Sim.
Local Open Scope list_scope.

Lemma Z_of_byte_of_Z (z : Z) : Z_of_byte (byte_of_Z z) = z mod 256.
Proof.
  unfold Z_of_byte, byte_of_Z.
  assert (Hr : 0 <= z mod 256 < 256) by (apply Z.mod_pos_bound; lia).
  destruct (Byte.of_N (Z.to_N (z mod 256))) as [b|] eqn:E.
  - apply Byte.to_of_N in E. rewrite E. apply Z2N.id. lia.
  - apply Byte.of_N_None_iff in E. lia.
Qed.

Lemma un_le32_le32 (n : Z) :
  un_le32 (byte_of_Z n) (byte_of_Z (n / 256)) (byte_of_Z (n / 65536))
          (byte_of_Z (n / 16777216)) = n mod 4294967296.
Proof.
  unfold un_le32. rewrite !Z_of_byte_of_Z.
  replace (n / 65536) with (n / 256 / 256)
    by (rewrite Z.div_div by lia; reflexivity).
  replace (n / 16777216) with (n / 256 / 256 / 256)
    by (rewrite !Z.div_div by lia; reflexivity).
  pose proof (Z.div_mod n 256 ltac:(lia)) as H0.
  pose proof (Z.div_mod (n / 256) 256 ltac:(lia)) as H1.
  pose proof (Z.div_mod (n / 256 / 256) 256 ltac:(lia)) as H2.
  pose proof (Z.div_mod (n / 256 / 256 / 256) 256 ltac:(lia)) as H3.
  pose proof (Z.mod_pos_bound n 256 ltac:(lia)).
  pose proof (Z.mod_pos_bound (n / 256) 256 ltac:(lia)).
  pose proof (Z.mod_pos_bound (n / 256 / 256) 256 ltac:(lia)).
  pose proof (Z.mod_pos_bound (n / 256 / 256 / 256) 256 ltac:(lia)).
  apply (Z.mod_unique n 4294967296 (n / 256 / 256 / 256 / 256)); lia.
Qed.

Lemma length_deflate_stored (data : bytes) :
  List.length (deflate_stored data) = (6 * List.length data)%nat.
Proof.
  induction data as [|b data IH]; [reflexivity|].
  cbn [deflate_stored flat_map stored_block app List.length].
  change (flat_map stored_block data) with (deflate_stored data).
  rewrite IH. lia.
Qed.

(** Reading the blocks of [data] appends [data] to what was read. *)
Lemma inflate_deflate (data : bytes) :
  forall (fuel : nat) (tail acc : bytes),
    inflate_stored (List.length data + fuel) (deflate_stored data ++ tail) acc
    = inflate_stored fuel tail (acc ++ data).
Proof.
  induction data as [|b data IH]; intros fuel tail acc.
  - simpl. now rewrite app_nil_r.
  - cbn [List.length Nat.add deflate_stored flat_map stored_block app
         inflate_stored].
    change (Z_of_byte x00) with 0. change (Z_of_byte x01) with 1.
    change (Z_of_byte xfe) with 254. change (Z_of_byte xff) with 255.
    change (flat_map stored_block data) with (deflate_stored data).
    replace (1 + 256 * 0 <=? Z.of_nat (S (List.length (deflate_stored data ++ tail))))
      with true by (symmetry; apply Z.leb_le; lia).
    change (Z.to_nat (1 + 256 * 0)) with 1%nat.
    cbn. rewrite IH. now rewrite <- app_assoc.
Qed.

Lemma ReadAll_written (data : bytes) :
  ReadAll (deflate_stored data ++ sync_marker ++ final_block ++ gz_trailer data)
  = inl data.
Proof.
  unfold ReadAll.
  rewrite length_app, length_deflate_stored.
  replace (6 * List.length data
           + List.length (sync_marker ++ final_block ++ gz_trailer data))%nat
    with (List.length data + S (S (5 * List.length data + 16)))%nat
    by (cbn [List.length app sync_marker final_block gz_trailer le32]; lia).
  rewrite inflate_deflate.
  cbn [app sync_marker final_block inflate_stored].
  change (Z_of_byte x00) with 0. change (Z_of_byte x01) with 1.
  change (Z_of_byte xff) with 255.
  replace (0 + 256 * 0 <=? Z.of_nat (List.length (x01 :: x00 :: x00 :: xff :: xff :: gz_trailer data)))
    with true by (symmetry; apply Z.leb_le; lia).
  replace (0 + 256 * 0 <=? Z.of_nat (List.length (gz_trailer data)))
    with true by (symmetry; apply Z.leb_le; lia).
  cbn -[crc32 Z.modulo Z.div byte_of_Z un_le32].
  change ((0 / 2) mod 4 =? 0) with true.
  change ((1 / 2) mod 4 =? 0) with true.
  cbn [andb le32]. rewrite !app_nil_r.
  rewrite !un_le32_le32, !Z.mod_mod, !Z.eqb_refl by lia.
  reflexivity.
Qed.

Lemma gz_laws : GzipLaws gz.
Proof.
  intros data.
  exists {| wroteHeader := false; written := []; closed := false |}.
  exists {| wroteHeader := true; written := data; closed := false |}.
  exists {| wroteHeader := true; written := data; closed := false |}.
  exists {| wroteHeader := true; written := data; closed := true |}.
  exists (gz_header ++ deflate_stored data)%list, sync_marker,
         (final_block ++ gz_trailer data)%list.
  repeat split.
  exists (deflate_stored data ++ sync_marker ++ final_block ++ gz_trailer data)%list.
  split.
  - cbn. reflexivity.
  - apply ReadAll_written.
Qed.
End SimFacts.

(** ** The codec functions *)
Section CodecFacts.
Variable lib : GzipLib.

Lemma doGzip_writes_valid_stream :
  GzipLaws lib ->
  forall data : bytes,
    exists z, doGzip lib [] data = (z, None) /\ gzip_valid lib z data.
Proof.
  intros laws data.
  destruct (laws data)
    as (gw0 & gw1 & gw2 & gw3 & o1 & o2 & o3 & Hn & Hw & Hf & Hc & Hv).
  exists (o1 ++ o2 ++ o3)%list. split; [|exact Hv].
  unfold doGzip. rewrite Hn, Hw, Hf, Hc. cbn.
  now rewrite <- app_assoc.
Qed.

Lemma doGunzip_valid_stream (w stream content : bytes) :
  gzip_valid lib stream content ->
  doGunzip lib w stream = Returns ((w ++ content)%list, None).
Proof.
  intros (gr & Hr & Ha). unfold doGunzip. now rewrite Hr, Ha.
Qed.

(** A stream whose header is read and whose body is not: the reader
    exists, and the error of [ReadAll] is returned. *)
Lemma doGunzip_corrupt_body (w data : bytes) (gr : gzReader lib) (err : error) :
  gzip_NewReader lib data = inl gr ->
  ioutil_ReadAll_gz lib gr = inr err ->
  doGunzip lib w data = Returns (w, Some err).
Proof.
  intros Hr Ha. unfold doGunzip. now rewrite Hr, Ha.
Qed.

(** C3. For every payload P, [doGzip] into an empty buffer succeeds, and
    [doGunzip] of the bytes it wrote succeeds and yields exactly P
    (given a gzip library that keeps its promises). *)
Theorem doGunzip_doGzip :
  GzipLaws lib ->
  forall P : bytes,
    exists z, doGzip lib [] P = (z, None)
           /\ doGunzip lib [] z = Returns (P, None).
Proof.
  intros laws P.
  destruct (doGzip_writes_valid_stream laws P) as (z & Hz & Hv).
  exists z. split; [exact Hz|].
  now rewrite (doGunzip_valid_stream [] z P Hv).
Qed.

(** C2. On a buffer whose gzip header the library rejects, [doGunzip]
    does not return the decode error: the deferred [Close] runs on the
    nil reader and the call panics. *)
Theorem doGunzip_bad_header_panics (w data : bytes) (err : error) :
  gzip_NewReader lib data = inr err ->
  doGunzip lib w data = Panics nil_dereference.
Proof.
  intros Hr. unfold doGunzip. now rewrite Hr.
Qed.
End CodecFacts.

Lemma doGunzip_doGzip_witness :
  GzipLaws Sim.gz
  /\ exists z, doGzip Sim.gz [] (bytes_of "hello") = (z, None)
            /\ doGunzip Sim.gz [] z = Returns (bytes_of "hello", None).
Proof.
  split.
  - exact SimFacts.gz_laws.
  - exact (doGunzip_doGzip Sim.gz SimFacts.gz_laws (bytes_of "hello")).
Defined.

Lemma doGunzip_bad_header_panics_witness :
  gzip_NewReader Sim.gz [] = inr (Foreign "EOF")
  /\ doGunzip Sim.gz [] [] = Panics nil_dereference.
Proof.
  split.
  - reflexivity.
  - apply (doGunzip_bad_header_panics Sim.gz [] [] (Foreign "EOF")). reflexivity.
Defined.

(** ** The request pipeline *)

Ltac run_go :=
  unfold bind, ret, panic, get_self, deref, set_Token, note_acquire;
  cbn [fst snd self ticks sent acquired].

Section PipelineFacts.
Variable lib : GzipLib.
Variable env : Env.

Lemma read_response_state (res : HttpResponse) (s : Machine) :
  snd (read_response lib res s) = s.
Proof.
  unfold read_response.
  destruct (res_Body res) as [body|err]; [|reflexivity].
  destruct (Header_Get (res_Header res) "Content-Encoding" =? "gzip")%string;
    run_go.
  - destruct (doGunzip lib [] body) as [[w [err|]]|why]; run_go;
      try reflexivity.
    destruct ((http_StatusOK <=? StatusCode res)
              && (StatusCode res <? http_StatusMultipleChoices));
      reflexivity.
  - destruct ((http_StatusOK <=? StatusCode res)
              && (StatusCode res <? http_StatusMultipleChoices));
      reflexivity.
Qed.

(** The request could not be built: the first header line is set on a
    nil request. *)
Lemma send_request_nil (m : Mnubo) (cr : ClientRequest) (body : bytes)
      (s : Machine) (err : error) :
  http_NewRequest_check env (method cr) (Host m ++ path cr) = Some err ->
  send_request lib env m cr body s = (Panics nil_dereference, s).
Proof.
  intros Hc. unfold send_request, http_NewRequest. rewrite Hc.
  reflexivity.
Qed.

(** The request was built: it goes out with [wire_headers]. *)
Lemma send_request_built (m : Mnubo) (cr : ClientRequest) (body : bytes)
      (s : Machine) :
  http_NewRequest_check env (method cr) (Host m ++ path cr) = None ->
  send_request lib env m cr body s =
  match client_Do env (sent s) (wire_request m cr body) with
  | inr err =>
      (Returns ([], Some (Errorf_t "unable to send client request: " err)),
       record_sent s (wire_request m cr body))
  | inl res => read_response lib res (record_sent s (wire_request m cr body))
  end.
Proof.
  intros Hc. unfold send_request, http_NewRequest. rewrite Hc.
  unfold wire_request, wire_headers, req_Header_Add, Header_Add, Do.
  destruct (negb (authorization cr =? "")%string),
           (Request (Compression m)), (Response (Compression m));
    run_go; cbn;
    match goal with
    | |- context [client_Do env ?h ?r] => destruct (client_Do env h r)
    end; reflexivity.
Qed.

Lemma doRequest_unfold (cr : ClientRequest) (s : Machine) :
  doRequest lib env cr s =
  if Request (Compression (self s)) && negb (skipCompression cr)
  then match doGzip lib [] (payload cr) with
       | (_, Some err) =>
           (Returns ([], Some (Errorf_t "unable to gzip request: " err)), s)
       | (w, None) => send_request lib env (self s) cr w s
       end
  else send_request lib env (self s) cr (payload cr) s.
Proof.
  unfold doRequest. run_go.
  destruct (Request (Compression (self s)) && negb (skipCompression cr));
    [|reflexivity].
  destruct (doGzip lib [] (payload cr)) as [w [err|]]; reflexivity.
Qed.

(** [doRequest] reads the client and the clock is left alone; at most
    one request goes out, the one built from [cr]. *)
Lemma doRequest_frame (cr : ClientRequest) (s : Machine) :
  let s' := snd (doRequest lib env cr s) in
  self s' = self s /\ ticks s' = ticks s /\ acquired s' = acquired s
  /\ (sent s' = sent s
      \/ exists body, sent s' = (sent s ++ [wire_request (self s) cr body])%list).
Proof.
  assert (Hsend : forall body,
    let s' := snd (send_request lib env (self s) cr body s) in
    self s' = self s /\ ticks s' = ticks s /\ acquired s' = acquired s
    /\ (sent s' = sent s
        \/ exists body, sent s' = (sent s ++ [wire_request (self s) cr body])%list)).
  { intros body.
    destruct (http_NewRequest_check env (method cr) (Host (self s) ++ path cr))
      as [err|] eqn:Hc.
    - rewrite (send_request_nil _ _ _ _ _ Hc). cbn. auto.
    - rewrite (send_request_built _ _ _ _ Hc).
      destruct (client_Do env (sent s) (wire_request (self s) cr body)).
      + rewrite read_response_state. cbn. eauto 6.
      + cbn. eauto 6. }
  rewrite doRequest_unfold.
  destruct (Request (Compression (self s)) && negb (skipCompression cr));
    [|apply Hsend].
  destruct (doGzip lib [] (payload cr)) as [w [err|]]; [cbn; auto|apply Hsend].
Qed.
End PipelineFacts.

Section ResponseFacts.
Variable lib : GzipLib.
Variable env : Env.

Lemma is_2xx_test (status : Z) :
  (http_StatusOK <=? status) && (status <? http_StatusMultipleChoices) = true
  <-> is_2xx status.
Proof.
  unfold is_2xx, http_StatusOK, http_StatusMultipleChoices.
  rewrite andb_true_iff, Z.leb_le, Z.ltb_lt. lia.
Qed.

(** What [doRequest] does with a response whose body can be read and,
    when marked gzip, inflated. *)
Lemma read_response_decoded (res : HttpResponse) (raw body : bytes)
      (s : Machine) :
  decoded_as lib res raw body ->
  read_response lib res s =
  (if (http_StatusOK <=? StatusCode res)
      && (StatusCode res <? http_StatusMultipleChoices)
   then Returns (body, None)
   else Returns ([], Some (Errorf_s "request Error: " body)), s).
Proof.
  intros (Hraw & [(Hgz & Hv) | (Hplain & ->)]); unfold read_response;
    rewrite Hraw.
  - rewrite Hgz. cbn [String.eqb Ascii.eqb Bool.eqb].
    rewrite (doGunzip_valid_stream lib [] raw body Hv). run_go. cbn [app].
    now destruct ((http_StatusOK <=? StatusCode res)
                  && (StatusCode res <? http_StatusMultipleChoices)).
  - apply String.eqb_neq in Hplain. rewrite Hplain. run_go.
    now destruct ((http_StatusOK <=? StatusCode res)
                  && (StatusCode res <? http_StatusMultipleChoices)).
Qed.

(** When the request can be built and the transport answers [res],
    [doRequest] is what it does with [res], one request later. *)
Lemma doRequest_answered (cr : ClientRequest) (s : Machine) (res : HttpResponse) :
  GzipLaws lib ->
  http_NewRequest_check env (method cr) (Host (self s) ++ path cr) = None ->
  (forall history req, client_Do env history req = inl res) ->
  exists body,
    doRequest lib env cr s
    = read_response lib res (record_sent s (wire_request (self s) cr body))
    /\ (if Request (Compression (self s)) && negb (skipCompression cr)
        then gzip_valid lib body (payload cr)
        else body = payload cr).
Proof.
  intros laws Hc Hdo. rewrite doRequest_unfold.
  destruct (Request (Compression (self s)) && negb (skipCompression cr)).
  - destruct (doGzip_writes_valid_stream lib laws (payload cr)) as (z & Hz & Hv).
    exists z. rewrite Hz, (send_request_built lib env _ _ _ _ Hc), Hdo. auto.
  - exists (payload cr).
    rewrite (send_request_built lib env _ _ _ _ Hc), Hdo. auto.
Qed.

(** C9. When [http.NewRequest] fails, [doRequest] does not return the
    construction error: the header lines are set first, on the nil
    request, and the call panics. *)
Theorem doRequest_unbuilt_request_panics (cr : ClientRequest) (s : Machine)
        (err : error) :
  GzipLaws lib ->
  http_NewRequest_check env (method cr) (Host (self s) ++ path cr) = Some err ->
  doRequest lib env cr s = (Panics nil_dereference, s).
Proof.
  intros laws Hc. rewrite doRequest_unfold.
  destruct (Request (Compression (self s)) && negb (skipCompression cr)).
  - destruct (doGzip_writes_valid_stream lib laws (payload cr)) as (z & Hz & _).
    rewrite Hz. exact (send_request_nil lib env _ _ _ _ _ Hc).
  - exact (send_request_nil lib env _ _ _ _ _ Hc).
Qed.

(** C6. A response is a success exactly when its status is in 200..299
    (so 200 and 299 are, 199 and 300 are not): then the decoded body is
    returned without error; otherwise the error carries the decoded
    body after the text [request Error: ]. *)
Theorem doRequest_status_classes (cr : ClientRequest) (s : Machine)
        (res : HttpResponse) (raw body : bytes) :
  GzipLaws lib ->
  http_NewRequest_check env (method cr) (Host (self s) ++ path cr) = None ->
  (forall history req, client_Do env history req = inl res) ->
  decoded_as lib res raw body ->
  (is_2xx (StatusCode res) ->
     fst (doRequest lib env cr s) = Returns (body, None))
  /\ (~ is_2xx (StatusCode res) ->
     fst (doRequest lib env cr s)
     = Returns ([], Some (Errorf_s "request Error: " body)))
  /\ is_2xx 200 /\ is_2xx 299 /\ ~ is_2xx 199 /\ ~ is_2xx 300.
Proof.
  intros laws Hc Hdo Hdec.
  destruct (doRequest_answered cr s res laws Hc Hdo) as (sentbody & -> & _).
  rewrite (read_response_decoded res raw body _ Hdec). cbn [fst].
  pose proof (is_2xx_test (StatusCode res)) as Ht.
  destruct ((http_StatusOK <=? StatusCode res)
            && (StatusCode res <? http_StatusMultipleChoices)).
  - repeat split; unfold is_2xx; try lia.
    intros Hn. exfalso. apply Hn, Ht. reflexivity.
  - repeat split; unfold is_2xx; try lia.
    intros Hy. apply Ht in Hy. discriminate.
Qed.
End ResponseFacts.

Lemma always_answers (answer : HttpResponse + error)
      (history : list HttpRequest) (req : HttpRequest) :
  client_Do (Sim.always answer) history req = answer.
Proof.
  cbn. unfold Sim.server.
  now destruct (String.prefix "Basic " (Header_Get (req_Header req) "Authorization")).
Qed.

Lemma gzipped_valid (data : bytes) :
  gzip_valid Sim.gz (Sim.gzipped data) data.
Proof.
  destruct (doGzip_writes_valid_stream Sim.gz SimFacts.gz_laws data)
    as (z & Hz & Hv).
  unfold Sim.gzipped. now rewrite Hz.
Qed.

Lemma doRequest_unbuilt_request_panics_witness :
  GzipLaws Sim.gz
  /\ http_NewRequest_check Sim.quiet "GET" ":/api/v3/objects"
     = Some (Foreign "missing protocol scheme")
  /\ doRequest Sim.gz Sim.quiet Sim.api_request
       (Sim.boot (NewClientWithToken "T" ":"))
     = (Panics nil_dereference, Sim.boot (NewClientWithToken "T" ":")).
Proof.
  split; [exact SimFacts.gz_laws|]. split; [reflexivity|].
  apply (doRequest_unbuilt_request_panics Sim.gz Sim.quiet Sim.api_request
           (Sim.boot (NewClientWithToken "T" ":"))
           (Foreign "missing protocol scheme") SimFacts.gz_laws).
  reflexivity.
Defined.

Lemma doRequest_status_classes_witness :
  decoded_as Sim.gz
    (Sim.respond 299 [("Content-Encoding", "gzip")] (Sim.gzipped (Sim.json "{}")))
    (Sim.gzipped (Sim.json "{}")) (Sim.json "{}")
  /\ is_2xx 299
  /\ fst (doRequest Sim.gz
            (Sim.always (inl (Sim.respond 299 [("Content-Encoding", "gzip")]
                                (Sim.gzipped (Sim.json "{}")))))
            Sim.api_request (Sim.boot (NewClientWithToken "T" "https://api.test")))
     = Returns (Sim.json "{}", None).
Proof.
  assert (Hdec : decoded_as Sim.gz
    (Sim.respond 299 [("Content-Encoding", "gzip")] (Sim.gzipped (Sim.json "{}")))
    (Sim.gzipped (Sim.json "{}")) (Sim.json "{}")).
  { split; [reflexivity|]. left. split; [reflexivity|apply gzipped_valid]. }
  assert (H299 : is_2xx 299) by (unfold is_2xx; lia).
  split; [exact Hdec|]. split; [exact H299|].
  refine (proj1 (doRequest_status_classes Sim.gz _ Sim.api_request _ _ _ _
                   SimFacts.gz_laws _ _ Hdec) H299).
  - reflexivity.
  - intros history req. apply always_answers.
Defined.

(** ** Authenticated calls *)
Section AuthFacts.
Variable lib : GzipLib.
Variable env : Env.

Lemma isUsingStaticToken_iff (m : Mnubo) :
  isUsingStaticToken m = true <-> ClientToken m <> "".
Proof.
  unfold isUsingStaticToken. rewrite negb_true_iff. apply String.eqb_neq.
Qed.

(** With a static token the call is [doRequest] on the request with
    the bearer line, followed by the decoding of its result. *)
Lemma doRequestWithAuthentication_static {R : Type}
      (unmarshal : bytes -> R -> R * option error)
      (cr : ClientRequest) (response : R) (s : Machine) :
  ClientToken (self s) <> "" ->
  doRequestWithAuthentication lib env unmarshal cr response s =
  match doRequest lib env
          (with_authorization cr ("Bearer " ++ ClientToken (self s))) s with
  | (Returns (data, None), s') => (Returns (unmarshal data response), s')
  | (Returns (_, Some err), s') => (Returns (response, Some err), s')
  | (Panics why, s') => (Panics why, s')
  end.
Proof.
  intros Htok. apply isUsingStaticToken_iff in Htok.
  unfold doRequestWithAuthentication. run_go. rewrite Htok. run_go.
  destruct (doRequest lib env _ s) as [[[data [err|]]|why] s']; reflexivity.
Qed.

Lemma wire_headers_Authorization (m : Mnubo) (cr : ClientRequest) :
  authorization cr <> "" ->
  Header_Get (wire_headers m cr) "Authorization" = authorization cr.
Proof.
  intros Ha. apply String.eqb_neq in Ha.
  unfold wire_headers. rewrite Ha. reflexivity.
Qed.

(** One call with a static token: nothing is acquired, the clock is not
    read, the client is unchanged and what goes out bears the token. *)
Lemma static_call_frame {R : Type}
      (unmarshal : bytes -> R -> R * option error)
      (cr : ClientRequest) (response : R) (s : Machine) :
  ClientToken (self s) <> "" ->
  let s' := snd (doRequestWithAuthentication lib env unmarshal cr response s) in
  acquired s' = acquired s /\ ticks s' = ticks s /\ self s' = self s
  /\ exists new, sent s' = (sent s ++ new)%list
              /\ Forall (bearer (ClientToken (self s))) new.
Proof.
  intros Htok. rewrite (doRequestWithAuthentication_static _ _ _ _ Htok).
  set (cr' := with_authorization cr ("Bearer " ++ ClientToken (self s))).
  pose proof (doRequest_frame lib env cr' s) as (Hself & Hticks & Hacq & Hsent).
  assert (Hs' : snd (match doRequest lib env cr' s with
                     | (Returns (data, None), s') =>
                         (Returns (unmarshal data response), s')
                     | (Returns (_, Some err), s') =>
                         (Returns (response, Some err), s')
                     | (Panics why, s') => (Panics why, s')
                     end) = snd (doRequest lib env cr' s)).
  { now destruct (doRequest lib env cr' s) as [[[data [err|]]|why] s']. }
  cbv zeta. rewrite Hs'.
  split; [assumption|]. split; [assumption|]. split; [assumption|].
  destruct Hsent as [Hsame | (body & Hone)].
  - exists []. rewrite app_nil_r. split; [assumption|constructor].
  - exists [wire_request (self s) cr' body]. split; [assumption|].
    constructor; [|constructor].
    unfold bearer, wire_request. cbn [req_Header].
    rewrite wire_headers_Authorization; [reflexivity|].
    cbn. discriminate.
Qed.

(** C8, as the code has it.  For every client whose [ClientToken] is
    not empty (whatever token is stored in it, expired or not) and
    every sequence of authenticated calls: [GetAccessTokenWithScope]
    is never called, the clock is never read, the client is unchanged,
    and every request sent bears [ClientToken]. *)
Theorem static_token_never_acquires {R : Type}
        (unmarshal : bytes -> R -> R * option error)
        (crs : list (ClientRequest * R)) (s : Machine) :
  ClientToken (self s) <> "" ->
  let s' := snd (calls lib env unmarshal crs s) in
  acquired s' = acquired s /\ ticks s' = ticks s /\ self s' = self s
  /\ exists new, sent s' = (sent s ++ new)%list
              /\ Forall (bearer (ClientToken (self s))) new.
Proof.
  revert s. induction crs as [|[cr response] rest IH]; intros s Htok.
  - cbn. split; [reflexivity|]. split; [reflexivity|]. split; [reflexivity|].
    exists []. rewrite app_nil_r. auto.
  - pose proof (static_call_frame unmarshal cr response s Htok)
      as (Hacq & Hticks & Hself & new1 & Hsent1 & Hb1).
    cbv zeta. cbn [calls]. unfold bind.
    destruct (doRequestWithAuthentication lib env unmarshal cr response s)
      as [[r|why] s1]; cbn [snd] in *.
    + assert (Htok1 : ClientToken (self s1) <> "") by now rewrite Hself.
      destruct (IH s1 Htok1) as (Hacq2 & Hticks2 & Hself2 & new2 & Hsent2 & Hb2).
      cbv zeta.
      split; [congruence|]. split; [congruence|]. split; [congruence|].
      exists (new1 ++ new2)%list. split.
      * rewrite Hsent2, Hsent1. now rewrite app_assoc.
      * apply Forall_app. split; [assumption|]. now rewrite <- Hself.
    + cbv zeta. split; [assumption|]. split; [assumption|].
      split; [assumption|]. now exists new1.
Qed.
End AuthFacts.

Section GzipResponseFacts.
Variable lib : GzipLib.
Variable env : Env.

(** C7. When the response says [Content-Encoding: gzip], [doRequest]
    inflates its body first: the status is looked at, and the body is
    returned or quoted in the error, only after [doGunzip]; with a
    static token the JSON decoder is given the inflated body.  Nothing
    is assumed of the client's [Compression.Response]. *)
Theorem gzip_response_is_inflated_first (cr : ClientRequest) (s : Machine)
        (res : HttpResponse) (raw : bytes) :
  GzipLaws lib ->
  http_NewRequest_check env (method cr) (Host (self s) ++ path cr) = None ->
  (forall history req, client_Do env history req = inl res) ->
  res_Body res = inl raw ->
  Header_Get (res_Header res) "Content-Encoding" = "gzip" ->
  fst (doRequest lib env cr s) =
    match doGunzip lib [] raw with
    | Panics why => Panics why
    | Returns (_, Some err) =>
        Returns ([], Some (Errorf_t "unable to gunzip response: " err))
    | Returns (body, None) =>
        if (http_StatusOK <=? StatusCode res)
           && (StatusCode res <? http_StatusMultipleChoices)
        then Returns (body, None)
        else Returns ([], Some (Errorf_s "request Error: " body))
    end
  /\ forall (R : Type) (unmarshal : bytes -> R -> R * option error)
            (response : R) (body : bytes),
       ClientToken (self s) <> "" ->
       gzip_valid lib raw body ->
       is_2xx (StatusCode res) ->
       fst (doRequestWithAuthentication lib env unmarshal cr response s)
       = Returns (unmarshal body response).
Proof.
  intros laws Hc Hdo Hraw Hgz. split.
  - destruct (doRequest_answered lib env cr s res laws Hc Hdo) as (out & -> & _).
    unfold read_response. rewrite Hraw, Hgz.
    cbn [String.eqb Ascii.eqb Bool.eqb]. run_go.
    destruct (doGunzip lib [] raw) as [[w [err|]]|why]; run_go;
      try reflexivity.
    now destruct ((http_StatusOK <=? StatusCode res)
                  && (StatusCode res <? http_StatusMultipleChoices)).
  - intros R unmarshal response body Htok Hv H2xx.
    rewrite (doRequestWithAuthentication_static lib env _ _ _ _ Htok).
    set (cr' := with_authorization cr ("Bearer " ++ ClientToken (self s))).
    destruct (doRequest_answered lib env cr' s res laws Hc Hdo) as (out & -> & _).
    rewrite (read_response_decoded lib res raw body).
    + apply is_2xx_test in H2xx. rewrite H2xx. reflexivity.
    + split; [assumption|]. left. auto.
Qed.
End GzipResponseFacts.

Lemma gzip_response_is_inflated_first_witness :
  Response (Compression (NewClientWithToken "T" "https://api.test")) = false
  /\ fst (doRequestWithAuthentication Sim.gz
            (Sim.always (inl (Sim.respond 200 [("Content-Encoding", "gzip")]
                                (Sim.gzipped (Sim.json "{'ok':1}")))))
            Sim.keep Sim.api_request []
            (Sim.boot (NewClientWithToken "T" "https://api.test")))
     = Returns (Sim.json "{'ok':1}", None).
Proof.
  split; [reflexivity|].
  refine (proj2 (gzip_response_is_inflated_first Sim.gz _ Sim.api_request
                   (Sim.boot (NewClientWithToken "T" "https://api.test"))
                   (Sim.respond 200 [("Content-Encoding", "gzip")]
                      (Sim.gzipped (Sim.json "{'ok':1}")))
                   (Sim.gzipped (Sim.json "{'ok':1}"))
                   SimFacts.gz_laws _ _ _ _)
                bytes Sim.keep [] (Sim.json "{'ok':1}") _ _ _).
  - reflexivity.
  - intros history req. apply always_answers.
  - reflexivity.
  - reflexivity.
  - cbn. discriminate.
  - apply gzipped_valid.
  - unfold is_2xx. cbn. lia.
Defined.

(** ** Token acquisition *)
Section TokenFacts.
Variable lib : GzipLib.
Variable env : Env.

Lemma GetAccessTokenWithScope_unfold (scope : string) (s : Machine) :
  GetAccessTokenWithScope lib env scope s =
  match doRequest lib env (token_request (self s) scope) (noted s scope) with
  | (Panics why, s1) => (Panics why, s1)
  | (Returns (_, Some err), s1) =>
      (Returns (AccessToken_zero, Some err), ticked s1)
  | (Returns (body, None), s1) =>
      match json_Unmarshal_AccessToken env body AccessToken_zero with
      | (at', Some err) =>
          (Returns (at', Some (Errorf_t "unable to unmarshall body " err)),
           ticked s1)
      | (at', None) =>
          let parsed := time_ParseDuration_ms (ExpiresIn at') in
          let stored :=
            with_ExpiresAt at' (Time_Add (time_Now env (ticks s1)) (fst parsed)) in
          (Returns (stored, snd parsed), storing (ticked s1) stored)
      end
  end.
Proof.
  unfold GetAccessTokenWithScope. run_go.
  change {| self := self s; ticks := ticks s; sent := sent s;
            acquired := (acquired s ++ [scope])%list |} with (noted s scope).
  destruct (doRequest lib env (token_request (self s) scope) (noted s scope))
    as [[[body [err|]]|why] s1]; try reflexivity.
  unfold now. cbn.
  destruct (json_Unmarshal_AccessToken env body AccessToken_zero)
    as [at' [err|]]; [reflexivity|].
  destruct (time_ParseDuration_ms (ExpiresIn at')) as [dur err].
  reflexivity.
Qed.

(** Every call is recorded, and the clock does not go back. *)
Lemma GetAccessTokenWithScope_frame (scope : string) (s : Machine) :
  let s' := snd (GetAccessTokenWithScope lib env scope s) in
  acquired s' = (acquired s ++ [scope])%list
  /\ (ticks s <= ticks s')%nat
  /\ ClientToken (self s') = ClientToken (self s).
Proof.
  rewrite GetAccessTokenWithScope_unfold.
  pose proof (doRequest_frame lib env (token_request (self s) scope)
                (noted s scope)) as (Hself & Hticks & Hacq & _).
  destruct (doRequest lib env (token_request (self s) scope) (noted s scope))
    as [[[body [err|]]|why] s1]; cbn [snd] in *.
  - cbn. rewrite Hself, Hticks, Hacq. cbn. auto.
  - destruct (json_Unmarshal_AccessToken env body AccessToken_zero)
      as [at' [err|]]; cbn; rewrite Hticks, Hacq, ?Hself; cbn; auto.
  - rewrite Hself, Hticks, Hacq. cbn. auto.
Qed.

(** The failures the exchange itself can report (the transport fails,
    the status is not 2xx, the body cannot be inflated or read, the
    JSON cannot be decoded) and a panic leave the client as it was, and
    none of them is reported as a success. *)
Lemma failed_exchange_keeps_token (scope : string) (s : Machine) :
  match doRequest lib env (token_request (self s) scope) (noted s scope) with
  | (Returns (body, None), _) =>
      snd (json_Unmarshal_AccessToken env body AccessToken_zero) <> None
  | _ => True
  end ->
  self (snd (GetAccessTokenWithScope lib env scope s)) = self s
  /\ forall at', fst (GetAccessTokenWithScope lib env scope s)
                <> Returns (at', None).
Proof.
  rewrite GetAccessTokenWithScope_unfold.
  pose proof (doRequest_frame lib env (token_request (self s) scope)
                (noted s scope)) as (Hself & _).
  destruct (doRequest lib env (token_request (self s) scope) (noted s scope))
    as [[[body [err|]]|why] s1]; cbn [snd] in *; intros Hfail.
  - split; [exact Hself|]. intros at'. cbn. discriminate.
  - destruct (json_Unmarshal_AccessToken env body AccessToken_zero)
      as [at'' [err|]]; [|now contradiction Hfail].
    split; [exact Hself|]. intros at'. cbn. discriminate.
  - split; [exact Hself|]. intros at'. cbn. discriminate.
Qed.
End TokenFacts.

Section TokenClaims.
Variable lib : GzipLib.
Variable env : Env.

(** The half of C1 that holds: with [Compression.Request] set, a request
    that does not skip compression goes out marked gzip, and its body
    inflates to the payload. *)
Lemma compressed_request_on_the_wire (cr : ClientRequest) (s : Machine) :
  GzipLaws lib ->
  Request (Compression (self s)) = true ->
  skipCompression cr = false ->
  http_NewRequest_check env (method cr) (Host (self s) ++ path cr) = None ->
  exists req,
    sent (snd (doRequest lib env cr s)) = (sent s ++ [req])%list
    /\ In ("Content-Encoding", "gzip") (req_Header req)
    /\ gzip_valid lib (req_Body req) (payload cr).
Proof.
  intros laws Hrq Hskip Hc. rewrite doRequest_unfold, Hrq, Hskip.
  cbn [andb negb].
  destruct (doGzip_writes_valid_stream lib laws (payload cr)) as (z & -> & Hv).
  rewrite (send_request_built lib env _ _ _ _ Hc).
  exists (wire_request (self s) cr z).
  assert (Hs : sent (snd match client_Do env (sent s) (wire_request (self s) cr z) with
                         | inr err =>
                             (Returns ([], Some (Errorf_t
                                "unable to send client request: " err)),
                              record_sent s (wire_request (self s) cr z))
                         | inl res =>
                             read_response lib res
                               (record_sent s (wire_request (self s) cr z))
                         end)
               = (sent s ++ [wire_request (self s) cr z])%list).
  { destruct (client_Do env (sent s) (wire_request (self s) cr z));
      [rewrite read_response_state|]; reflexivity. }
  split; [exact Hs|]. split; [|exact Hv].
  unfold wire_request, wire_headers. cbn [req_Header]. rewrite Hrq.
  apply in_or_app. right. apply in_or_app. right. apply in_or_app. left.
  now left.
Qed.

(** C1, where the code departs from it.  With [Compression.Request]
    set, the request [GetAccessTokenWithScope] sends carries
    [Content-Encoding: gzip] although its body is the form text, not
    compressed. *)
Theorem token_request_is_marked_gzip (scope : string) (s : Machine) :
  Request (Compression (self s)) = true ->
  http_NewRequest_check env "POST" (Host (self s) ++ "/oauth/token") = None ->
  exists req,
    sent (snd (GetAccessTokenWithScope lib env scope s)) = (sent s ++ [req])%list
    /\ Header_Get (req_Header req) "Content-Encoding" = "gzip"
    /\ req_Body req = token_payload scope.
Proof.
  intros Hrq Hc.
  set (cr := token_request (self s) scope).
  set (req := wire_request (self s) cr (token_payload scope)).
  assert (Hsent : sent (snd (doRequest lib env cr (noted s scope)))
                  = (sent s ++ [req])%list).
  { rewrite doRequest_unfold. cbn [self noted]. rewrite Hrq.
    cbn [cr token_request skipCompression andb negb payload].
    rewrite (send_request_built lib env (self s) cr _ (noted s scope) Hc).
    fold (token_payload scope). fold req.
    destruct (client_Do env (sent (noted s scope)) req);
      [rewrite read_response_state|]; reflexivity. }
  exists req. split; [|split].
  - rewrite GetAccessTokenWithScope_unfold. fold cr.
    destruct (doRequest lib env cr (noted s scope))
      as [[[body [err|]]|why] s1]; cbn [snd] in *; try exact Hsent.
    destruct (json_Unmarshal_AccessToken env body AccessToken_zero)
      as [at' [err|]]; exact Hsent.
  - unfold req, wire_request, wire_headers. cbn [req_Header]. rewrite Hrq.
    reflexivity.
  - reflexivity.
Qed.

(** C5, where the code departs from it.  The exchange succeeds and the
    JSON decodes, but [expires_in] is too long for a [Duration]: the
    call returns the error of [ParseDuration] and has none the less
    replaced the stored token. *)
Theorem overlong_expiry_fails_after_storing (scope : string) (s : Machine)
        (res : HttpResponse) (raw body : bytes) (at' : AccessToken) :
  GzipLaws lib ->
  http_NewRequest_check env "POST" (Host (self s) ++ "/oauth/token") = None ->
  (forall history req, client_Do env history req = inl res) ->
  decoded_as lib res raw body ->
  is_2xx (StatusCode res) ->
  json_Unmarshal_AccessToken env body AccessToken_zero = (at', None) ->
  ParseDuration_overflow < Z.abs (ExpiresIn at') ->
  let stored := with_ExpiresAt at' (time_Now env (ticks s)) in
  fst (GetAccessTokenWithScope lib env scope s)
  = Returns (stored, Some (Foreign "time: invalid duration"))
  /\ Token (self (snd (GetAccessTokenWithScope lib env scope s))) = stored.
Proof.
  intros laws Hc Hdo Hdec H2xx Hjson Hlong.
  rewrite GetAccessTokenWithScope_unfold.
  destruct (doRequest_answered lib env (token_request (self s) scope)
              (noted s scope) res laws Hc Hdo) as (out & -> & _).
  rewrite (read_response_decoded lib res raw body _ Hdec).
  apply is_2xx_test in H2xx. rewrite H2xx, Hjson.
  unfold time_ParseDuration_ms.
  replace (Z.abs (ExpiresIn at') <=? ParseDuration_overflow) with false
    by (symmetry; apply Z.leb_gt; exact Hlong).
  cbn. unfold Time_Add. rewrite Z.add_0_r. split; reflexivity.
Qed.
End TokenClaims.

Lemma token_request_is_marked_gzip_witness :
  Request (Compression (Sim.compressing (NewClient "a" "b" Sim.api_host))) = true
  /\ exists req,
       sent (snd (GetAccessTokenWithScope Sim.gz Sim.quiet "ALL"
                    (Sim.boot (Sim.compressing (NewClient "a" "b" Sim.api_host)))))
       = [req]
       /\ Header_Get (req_Header req) "Content-Encoding" = "gzip"
       /\ req_Body req = token_payload "ALL".
Proof.
  split; [reflexivity|].
  apply (token_request_is_marked_gzip Sim.gz Sim.quiet "ALL"
           (Sim.boot (Sim.compressing (NewClient "a" "b" Sim.api_host))));
    reflexivity.
Defined.

Lemma overlong_expiry_fails_after_storing_witness :
  let s := Sim.boot (with_Token (NewClient "a" "b" Sim.api_host) Sim.old_token) in
  let env := Sim.always (inl (Sim.respond 200 [] Sim.long_token_json)) in
  let stored := {| Value := "tok2"; TokenType := ""; ExpiresIn := 9223372036855;
                   ExpiresAt := 5000; Scope := ""; Jti := "" |} in
  Token (self s) = Sim.old_token
  /\ fst (GetAccessTokenWithScope Sim.gz env "ALL" s)
     = Returns (stored, Some (Foreign "time: invalid duration"))
  /\ Token (self (snd (GetAccessTokenWithScope Sim.gz env "ALL" s))) = stored.
Proof.
  intros s env stored. split; [reflexivity|].
  apply (overlong_expiry_fails_after_storing Sim.gz env "ALL" s
           (Sim.respond 200 [] Sim.long_token_json)
           Sim.long_token_json Sim.long_token_json
           {| Value := "tok2"; TokenType := ""; ExpiresIn := 9223372036855;
              ExpiresAt := 0; Scope := ""; Jti := "" |}
           SimFacts.gz_laws).
  - reflexivity.
  - intros history req. apply always_answers.
  - split; [reflexivity|]. right. split; [cbn; discriminate|reflexivity].
  - unfold is_2xx. cbn. lia.
  - reflexivity.
  - unfold ParseDuration_overflow. cbn. lia.
Defined.

(** ** Expiry and the credential mode *)
Section ModeFacts.
Variable lib : GzipLib.
Variable env : Env.

(** C4, as the code has it.  [hasExpired] reads the clock once and
    answers whether [ExpiresAt] is strictly before that instant: a
    token is expired exactly when [ExpiresAt < t]; the zero-value token
    exactly when the zero time is before [t]; and at [t = ExpiresAt] a
    token is not expired. *)
Theorem hasExpired_iff_strictly_past (at' : AccessToken) (s : Machine) :
  hasExpired env at' s
  = (Returns (Time_Before (ExpiresAt at') (time_Now env (ticks s))), ticked s)
  /\ (Time_Before (ExpiresAt at') (time_Now env (ticks s)) = true
      <-> ExpiresAt at' < time_Now env (ticks s))
  /\ (Time_Before (ExpiresAt AccessToken_zero) (time_Now env (ticks s)) = true
      <-> Time_zero < time_Now env (ticks s))
  /\ Time_Before (ExpiresAt at') (ExpiresAt at') = false.
Proof.
  unfold Time_Before. repeat split; try apply Z.ltb_lt; try assumption.
  apply Z.ltb_irrefl.
Qed.

(** A client without a static token whose stored token is past: the
    call reads the clock and calls [GetAccessToken], once. *)
Lemma dynamic_call_acquires {R : Type}
      (unmarshal : bytes -> R -> R * option error)
      (cr : ClientRequest) (response : R) (s : Machine) :
  ClientToken (self s) = "" ->
  ExpiresAt (Token (self s)) < time_Now env (ticks s) ->
  let s' := snd (doRequestWithAuthentication lib env unmarshal cr response s) in
  (ticks s < ticks s')%nat /\ acquired s' = (acquired s ++ ["ALL"])%list.
Proof.
  intros Htok Hpast.
  unfold doRequestWithAuthentication, isUsingStaticToken, hasExpired, now.
  run_go. rewrite Htok. cbn [String.eqb negb].
  unfold Time_Before. apply Z.ltb_lt in Hpast. rewrite Hpast.
  change {| self := self s; ticks := S (ticks s); sent := sent s;
            acquired := acquired s |} with (ticked s).
  unfold GetAccessToken.
  pose proof (GetAccessTokenWithScope_frame lib env "ALL" (ticked s))
    as (Hacq & Hticks & _).
  destruct (GetAccessTokenWithScope lib env "ALL" (ticked s))
    as [[[at1 [err|]]|why] s1]; cbn [snd ticked ticks acquired] in *.
  - cbv zeta. cbn. split; [lia|assumption].
  - cbv zeta. cbn [fst snd].
    set (cr' := with_authorization cr ("Bearer " ++ Value (Token (self s1)))).
    pose proof (doRequest_frame lib env cr' s1) as (_ & Hticks2 & Hacq2 & _).
    destruct (doRequest lib env cr' s1) as [[[data [err|]]|why] s2];
      cbn [snd] in *; split; try lia; congruence.
  - cbv zeta. cbn. split; [lia|assumption].
Qed.

(** C10. The mode is read from [ClientToken] alone: a client is static
    exactly when [ClientToken] is not empty.  A client built by
    [NewClientWithToken] with the empty token is therefore dynamic: an
    authenticated call on it checks the expiry (the clock is read) and,
    its stored token being the zero value, calls [GetAccessToken]. *)
Theorem empty_static_token_is_dynamic {R : Type}
        (unmarshal : bytes -> R -> R * option error)
        (host : string) (cr : ClientRequest) (response : R) (s : Machine) :
  self s = NewClientWithToken "" host ->
  Time_zero < time_Now env (ticks s) ->
  let s' := snd (doRequestWithAuthentication lib env unmarshal cr response s) in
  (forall m, isUsingStaticToken m = true <-> ClientToken m <> "")
  /\ isUsingStaticToken (self s) = false
  /\ (ticks s < ticks s')%nat
  /\ acquired s' = (acquired s ++ ["ALL"])%list.
Proof.
  intros Hself Hclock.
  split; [apply isUsingStaticToken_iff|].
  split; [now rewrite Hself|].
  apply dynamic_call_acquires; rewrite Hself; [reflexivity|exact Hclock].
Qed.
End ModeFacts.

(** C4 as written fails at the instant [t = ExpiresAt]: the token is not
    the zero value, [t >= ExpiresAt] holds, and [hasExpired] is false. *)
Lemma hasExpired_false_at_ExpiresAt :
  ~ (fst (hasExpired (Sim.quiet_at 7) Sim.old_token (Sim.boot (NewClient "a" "b" Sim.api_host)))
     = Returns true
     <-> (Sim.old_token = AccessToken_zero
          \/ time_Now (Sim.quiet_at 7) 0 >= ExpiresAt Sim.old_token)).
Proof.
  intros [_ H].
  assert (Hge : time_Now (Sim.quiet_at 7) 0 >= ExpiresAt Sim.old_token)
    by (cbn; lia).
  specialize (H (or_intror Hge)). cbn in H. discriminate H.
Qed.

(** C8 as written fails for the empty token: a client built by
    [NewClientWithToken] with it acquires a token on its first call. *)
Lemma empty_token_client_acquires :
  acquired (snd (calls Sim.gz Sim.quiet Sim.keep [(Sim.api_request, [])]
                   (Sim.boot (NewClientWithToken "" Sim.api_host))))
  = ["ALL"]
  /\ acquired (snd (calls Sim.gz Sim.quiet Sim.keep [(Sim.api_request, [])]
                      (Sim.boot (NewClientWithToken "" Sim.api_host))))
     <> acquired (Sim.boot (NewClientWithToken "" Sim.api_host)).
Proof.
  split; [vm_compute; reflexivity|vm_compute; discriminate].
Qed.

Lemma static_token_never_acquires_witness :
  let s := Sim.boot (with_Token (NewClientWithToken "T" Sim.api_host) Sim.old_token) in
  let s' := snd (calls Sim.gz Sim.quiet Sim.keep
                   [(Sim.api_request, []); (Sim.api_request, [])] s) in
  ClientToken (self s) <> ""
  /\ ExpiresAt (Token (self s)) < time_Now Sim.quiet 0
  /\ acquired s' = acquired s /\ ticks s' = ticks s /\ self s' = self s
  /\ exists new, sent s' = (sent s ++ new)%list
              /\ Forall (bearer (ClientToken (self s))) new.
Proof.
  intros s s'.
  assert (Htok : ClientToken (self s) <> "") by (cbn; discriminate).
  split; [exact Htok|]. split; [cbn; lia|].
  exact (static_token_never_acquires Sim.gz Sim.quiet Sim.keep
           [(Sim.api_request, []); (Sim.api_request, [])] s Htok).
Defined.

Lemma empty_static_token_is_dynamic_witness :
  let s := Sim.boot (NewClientWithToken "" Sim.api_host) in
  let s' := snd (doRequestWithAuthentication Sim.gz Sim.quiet Sim.keep
                   Sim.api_request [] s) in
  Time_zero < time_Now Sim.quiet (ticks s)
  /\ isUsingStaticToken (self s) = false
  /\ (ticks s < ticks s')%nat
  /\ acquired s' = (acquired s ++ ["ALL"])%list.
Proof.
  intros s s'.
  assert (Hclock : Time_zero < time_Now Sim.quiet (ticks s)) by reflexivity.
  split; [exact Hclock|].
  exact (proj2 (empty_static_token_is_dynamic Sim.gz Sim.quiet Sim.keep
                  Sim.api_host Sim.api_request [] s eq_refl Hclock)).
Defined.

(** ** Runs in the executable world *)

(** The statuses next to the two bounds. *)
Example status_boundaries :
  let run status :=
    fst (doRequest Sim.gz (Sim.always (inl (Sim.respond status [] (Sim.json "{}"))))
           Sim.api_request (Sim.boot (NewClientWithToken "T" Sim.api_host))) in
  run 199 = Returns ([], Some (Errorf_s "request Error: " (Sim.json "{}")))
  /\ run 200 = Returns (Sim.json "{}", None)
  /\ run 299 = Returns (Sim.json "{}", None)
  /\ run 300 = Returns ([], Some (Errorf_s "request Error: " (Sim.json "{}"))).
Proof. repeat split; vm_compute; reflexivity. Qed.

(** A 401 answer is an error that quotes the body. *)
Example unauthorized_call :
  doRequestWithAuthentication Sim.gz
    (Sim.always (inl (Sim.respond 401 [] (Sim.json "{'error':'invalid_token'}"))))
    Sim.keep Sim.api_request [] (Sim.boot (NewClientWithToken "T" Sim.api_host))
  = (Returns ([], Some (Errorf_s "request Error: "
                          (Sim.json "{'error':'invalid_token'}"))),
     record_sent (Sim.boot (NewClientWithToken "T" Sim.api_host))
       (wire_request (NewClientWithToken "T" Sim.api_host)
          (with_authorization Sim.api_request "Bearer T")
          (payload Sim.api_request))).
Proof. vm_compute. reflexivity. Qed.

(** A token of 1000 ms: valid after it is issued, still valid at the
    instant it expires, expired 1.1 s later. *)
Example token_lifetime :
  let r := GetAccessToken Sim.gz Sim.quiet (Sim.boot (NewClient "a" "b" Sim.api_host)) in
  let stored := Token (self (snd r)) in
  Value stored = "tok1"
  /\ ExpiresAt stored = time_Now Sim.quiet 1000
  /\ fst (hasExpired Sim.quiet stored (snd r)) = Returns false
  /\ fst (hasExpired Sim.quiet stored (Sim.later (snd r) 999)) = Returns false
  /\ fst (hasExpired Sim.quiet stored (Sim.later (snd r) 1100)) = Returns true.
Proof. repeat split; vm_compute; reflexivity. Qed.

(** Text that is not gzip makes [doGunzip] panic; a stream with a good
    header and a broken body makes it return the error. *)
Example doGunzip_on_bad_input :
  doGunzip Sim.gz [] (bytes_of "not gzip") = Panics nil_dereference
  /\ doGunzip Sim.gz [] (Sim.gz_header ++ bytes_of "broken")%list
     = Returns ([], Some (Foreign "flate: corrupt input")).
Proof. split; vm_compute; reflexivity. Qed.

(** A gzip answer with a broken header takes the whole call down. *)
Example bad_gzip_answer_panics :
  fst (doRequest Sim.gz
         (Sim.always (inl (Sim.respond 200 [("Content-Encoding", "gzip")]
                             (bytes_of "not gzip"))))
         Sim.api_request (Sim.boot (NewClientWithToken "T" Sim.api_host)))
  = Panics nil_dereference.
Proof. vm_compute. reflexivity. Qed.

(** * Further properties of the pipeline *)

(** ** [doGunzip] and [doRequest] *)
Section PipelineErrors.
Variable lib : GzipLib.
Variable env : Env.

(** X1. The three ways [doGunzip] ends.  It succeeds only on a complete
    gzip stream, and then the inflated content is appended to the
    buffer; it returns an error only when the header was accepted and
    the body could not be read, and then the buffer is untouched; it
    panics only when the header was rejected. *)
Theorem doGunzip_outcomes (w data : bytes) :
  match doGunzip lib w data with
  | Returns (w', None) =>
      exists content, gzip_valid lib data content /\ w' = (w ++ content)%list
  | Returns (w', Some err) =>
      w' = w /\ exists gr, gzip_NewReader lib data = inl gr
                        /\ ioutil_ReadAll_gz lib gr = inr err
  | Panics why =>
      why = nil_dereference /\ exists err, gzip_NewReader lib data = inr err
  end.
Proof.
  unfold doGunzip.
  destruct (gzip_NewReader lib data) as [gr|err] eqn:Hr; cbn.
  - destruct (ioutil_ReadAll_gz lib gr) as [ud|err] eqn:Ha; cbn.
    + exists ud. split; [|reflexivity]. exists gr. auto.
    + split; [reflexivity|]. exists gr. auto.
  - split; [reflexivity|]. now exists err.
Qed.

(** A request that can be built goes to the transport once, with the
    body compressed or not, and the answer decides the rest. *)
Lemma doRequest_built (cr : ClientRequest) (s : Machine) :
  GzipLaws lib ->
  http_NewRequest_check env (method cr) (Host (self s) ++ path cr) = None ->
  exists body,
    (if Request (Compression (self s)) && negb (skipCompression cr)
     then gzip_valid lib body (payload cr)
     else body = payload cr)
    /\ doRequest lib env cr s =
       match client_Do env (sent s) (wire_request (self s) cr body) with
       | inr err =>
           (Returns ([], Some (Errorf_t "unable to send client request: " err)),
            record_sent s (wire_request (self s) cr body))
       | inl res =>
           read_response lib res (record_sent s (wire_request (self s) cr body))
       end.
Proof.
  intros laws Hc. rewrite doRequest_unfold.
  destruct (Request (Compression (self s)) && negb (skipCompression cr)).
  - destruct (doGzip_writes_valid_stream lib laws (payload cr)) as (z & Hz & Hv).
    exists z. rewrite Hz. split; [exact Hv|].
    exact (send_request_built lib env _ _ _ _ Hc).
  - exists (payload cr). split; [reflexivity|].
    exact (send_request_built lib env _ _ _ _ Hc).
Qed.

(** X2. When the transport fails, [doRequest] returns its error wrapped
    as [unable to send client request]; the request was handed to the
    transport once and nothing else changed. *)
Theorem transport_error_is_returned (cr : ClientRequest) (s : Machine)
        (err : error) :
  GzipLaws lib ->
  http_NewRequest_check env (method cr) (Host (self s) ++ path cr) = None ->
  (forall history req, client_Do env history req = inr err) ->
  exists req,
    doRequest lib env cr s
    = (Returns ([], Some (Errorf_t "unable to send client request: " err)),
       record_sent s req).
Proof.
  intros laws Hc Hdo.
  destruct (doRequest_built cr s laws Hc) as (body & _ & ->).
  rewrite Hdo. now exists (wire_request (self s) cr body).
Qed.

(** X3. A response whose body cannot be read is an error whatever its
    status and headers: [unable to read response body]. *)
Theorem unreadable_body_is_an_error (cr : ClientRequest) (s : Machine)
        (res : HttpResponse) (err : error) :
  GzipLaws lib ->
  http_NewRequest_check env (method cr) (Host (self s) ++ path cr) = None ->
  (forall history req, client_Do env history req = inl res) ->
  res_Body res = inr err ->
  fst (doRequest lib env cr s)
  = Returns ([], Some (Errorf_t "unable to read response body: " err)).
Proof.
  intros laws Hc Hdo Hbody.
  destruct (doRequest_built cr s laws Hc) as (body & _ & ->).
  rewrite Hdo. unfold read_response. rewrite Hbody. reflexivity.
Qed.

(** X4. A gzip response whose header is accepted and whose body is broken
    is an error, not a panic, and the status plays no part: [unable to
    gunzip response]. *)
Theorem corrupt_gzip_body_is_an_error (cr : ClientRequest) (s : Machine)
        (res : HttpResponse) (raw : bytes) (gr : gzReader lib) (err : error) :
  GzipLaws lib ->
  http_NewRequest_check env (method cr) (Host (self s) ++ path cr) = None ->
  (forall history req, client_Do env history req = inl res) ->
  res_Body res = inl raw ->
  Header_Get (res_Header res) "Content-Encoding" = "gzip" ->
  gzip_NewReader lib raw = inl gr ->
  ioutil_ReadAll_gz lib gr = inr err ->
  fst (doRequest lib env cr s)
  = Returns ([], Some (Errorf_t "unable to gunzip response: " err)).
Proof.
  intros laws Hc Hdo Hbody Hgz Hr Ha.
  destruct (doRequest_built cr s laws Hc) as (body & _ & ->).
  rewrite Hdo. unfold read_response. rewrite Hbody, Hgz.
  cbn [String.eqb Ascii.eqb Bool.eqb].
  rewrite (doGunzip_corrupt_body lib [] raw gr err Hr Ha). reflexivity.
Qed.

(** X5. [doRequest] leaves the client, the clock and the record of
    acquisitions alone, and hands at most one request to the transport:
    there is no retry. *)
Theorem doRequest_sends_at_most_once (cr : ClientRequest) (s : Machine) :
  let s' := snd (doRequest lib env cr s) in
  self s' = self s /\ ticks s' = ticks s /\ acquired s' = acquired s
  /\ exists new, sent s' = (sent s ++ new)%list /\ (List.length new <= 1)%nat.
Proof.
  destruct (doRequest_frame lib env cr s) as (Hself & Hticks & Hacq & Hsent).
  cbv zeta. split; [assumption|]. split; [assumption|]. split; [assumption|].
  destruct Hsent as [Hsame | (body & Hone)].
  - exists []. rewrite app_nil_r. split; [assumption|cbn; lia].
  - exists [wire_request (self s) cr body]. split; [assumption|cbn; lia].
Qed.
End PipelineErrors.

Section WireFacts.
Variable lib : GzipLib.
Variable env : Env.

Lemma wire_headers_lines (m : Mnubo) (cr : ClientRequest) :
  Header_Get (wire_headers m cr) "Content-Type" = contentType cr
  /\ Header_Get (wire_headers m cr) "X-MNUBO-SDK" = "Go"
  /\ Header_Get (wire_headers m cr) "Authorization" = authorization cr
  /\ Header_Get (wire_headers m cr) "Content-Encoding"
     = (if Request (Compression m) then "gzip" else "")
  /\ Header_Get (wire_headers m cr) "Accept-Encoding"
     = (if Response (Compression m) then "gzip" else "").
Proof.
  unfold wire_headers.
  destruct (authorization cr =? "")%string eqn:Ha;
    [apply String.eqb_eq in Ha; rewrite Ha|];
    destruct (Request (Compression m)), (Response (Compression m));
    cbn; repeat split; reflexivity.
Qed.

End WireFacts.

Lemma transport_error_is_returned_witness :
  exists req,
    doRequest Sim.gz (Sim.always (inr Sim.refused)) Sim.api_request
      (Sim.boot Sim.static_client)
    = (Returns ([], Some (Errorf_t "unable to send client request: " Sim.refused)),
       record_sent (Sim.boot Sim.static_client) req).
Proof.
  apply (transport_error_is_returned Sim.gz (Sim.always (inr Sim.refused))
           Sim.api_request (Sim.boot Sim.static_client) Sim.refused
           SimFacts.gz_laws).
  - reflexivity.
  - intros history req. apply always_answers.
Defined.

Lemma unreadable_body_is_an_error_witness :
  StatusCode Sim.truncated = 200
  /\ fst (doRequest Sim.gz (Sim.always (inl Sim.truncated)) Sim.api_request
            (Sim.boot Sim.static_client))
     = Returns ([], Some (Errorf_t "unable to read response body: "
                            (Foreign "unexpected EOF"))).
Proof.
  split; [reflexivity|].
  apply (unreadable_body_is_an_error Sim.gz (Sim.always (inl Sim.truncated))
           Sim.api_request (Sim.boot Sim.static_client) Sim.truncated
           (Foreign "unexpected EOF") SimFacts.gz_laws).
  - reflexivity.
  - intros history req. apply always_answers.
  - reflexivity.
Defined.

Lemma corrupt_gzip_body_is_an_error_witness :
  fst (doRequest Sim.gz (Sim.always (inl Sim.broken_gzip)) Sim.api_request
         (Sim.boot Sim.static_client))
  = Returns ([], Some (Errorf_t "unable to gunzip response: "
                         (Foreign "flate: corrupt input"))).
Proof.
  apply (corrupt_gzip_body_is_an_error Sim.gz (Sim.always (inl Sim.broken_gzip))
           Sim.api_request (Sim.boot Sim.static_client) Sim.broken_gzip
           (Sim.gz_header ++ bytes_of "broken")%list (bytes_of "broken")
           (Foreign "flate: corrupt input") SimFacts.gz_laws).
  - reflexivity.
  - intros history req. apply always_answers.
  - reflexivity.
  - reflexivity.
  - reflexivity.
  - vm_compute. reflexivity.
Defined.


(** ** Token acquisition, further *)
Section AcquisitionFacts.
Variable lib : GzipLib.
Variable env : Env.

(** What a successful acquisition went through. *)
Lemma GetAccessTokenWithScope_success (scope : string) (s : Machine)
      (at1 : AccessToken) :
  fst (GetAccessTokenWithScope lib env scope s) = Returns (at1, None) ->
  exists body at0 s1,
    doRequest lib env (token_request (self s) scope) (noted s scope)
    = (Returns (body, None), s1)
    /\ json_Unmarshal_AccessToken env body AccessToken_zero = (at0, None)
    /\ Z.abs (ExpiresIn at0) <= ParseDuration_overflow
    /\ at1 = with_ExpiresAt at0
               (Time_Add (time_Now env (ticks s)) (ExpiresIn at0 * Millisecond))
    /\ snd (GetAccessTokenWithScope lib env scope s) = storing (ticked s1) at1.
Proof.
  rewrite GetAccessTokenWithScope_unfold.
  pose proof (doRequest_frame lib env (token_request (self s) scope)
                (noted s scope)) as (_ & Hticks & _).
  destruct (doRequest lib env (token_request (self s) scope) (noted s scope))
    as [[[body [err|]]|why] s1]; cbn [snd fst] in *; try discriminate.
  destruct (json_Unmarshal_AccessToken env body AccessToken_zero)
    as [at0 [err|]] eqn:Hjson; cbn [fst snd]; try discriminate.
  unfold time_ParseDuration_ms.
  destruct (Z.abs (ExpiresIn at0) <=? ParseDuration_overflow) eqn:Hfit;
    cbn [fst snd]; try discriminate.
  intros H. injection H as <-.
  exists body, at0, s1. rewrite Hticks. cbn [ticks noted].
  apply Z.leb_le in Hfit. auto.
Qed.

Lemma GetAccessTokenWithScope_sent (scope : string) (s : Machine) :
  let s' := snd (GetAccessTokenWithScope lib env scope s) in
  (ticks s' <= S (ticks s))%nat
  /\ exists new, sent s' = (sent s ++ new)%list /\ (List.length new <= 1)%nat.
Proof.
  rewrite GetAccessTokenWithScope_unfold.
  pose proof (doRequest_frame lib env (token_request (self s) scope)
                (noted s scope)) as (_ & Hticks & _ & Hsent).
  change (ticks (noted s scope)) with (ticks s) in Hticks.
  assert (Hnew : exists new,
            sent (snd (doRequest lib env (token_request (self s) scope)
                         (noted s scope))) = (sent s ++ new)%list
            /\ (List.length new <= 1)%nat).
  { destruct Hsent as [Hsame | (body & Hone)].
    - exists []. rewrite app_nil_r. split; [exact Hsame|cbn; lia].
    - eexists. split; [exact Hone|cbn; lia]. }
  destruct (doRequest lib env (token_request (self s) scope) (noted s scope))
    as [[[body [err|]]|why] s1]; cbn [snd] in *.
  - cbn. split; [lia|exact Hnew].
  - destruct (json_Unmarshal_AccessToken env body AccessToken_zero)
      as [at0 [err|]]; cbn; (split; [lia|exact Hnew]).
  - split; [lia|exact Hnew].
Qed.

(** X7. A successful acquisition returns the token it stores: the client
    is as before but for the stored token, whose [ExpiresAt] is the
    clock reading taken after the exchange plus [ExpiresIn]
    milliseconds; such a lifetime fits a [Duration]; the clock was read
    once and the call was recorded. *)
Theorem successful_acquisition_stores_what_it_returns (scope : string)
        (s : Machine) (at1 : AccessToken) :
  fst (GetAccessTokenWithScope lib env scope s) = Returns (at1, None) ->
  let s' := snd (GetAccessTokenWithScope lib env scope s) in
  self s' = with_Token (self s) at1
  /\ ExpiresAt at1
     = Time_Add (time_Now env (ticks s)) (ExpiresIn at1 * Millisecond)
  /\ Z.abs (ExpiresIn at1) <= ParseDuration_overflow
  /\ ticks s' = S (ticks s)
  /\ acquired s' = (acquired s ++ [scope])%list.
Proof.
  intros Hok.
  destruct (GetAccessTokenWithScope_success scope s at1 Hok)
    as (body & at0 & s1 & Hreq & _ & Hfit & -> & Hs').
  pose proof (doRequest_frame lib env (token_request (self s) scope)
                (noted s scope)) as (Hself & Hticks & Hacq & _).
  rewrite Hreq in Hself, Hticks, Hacq. cbn [snd] in *.
  cbv zeta. rewrite Hs'. cbn. rewrite Hself, Hticks, Hacq. cbn. auto.
Qed.

(** X8. A token acquired at the reading [n] with a lifetime of [e]
    milliseconds is expired at exactly the later readings that are
    beyond [n + e ms]. *)
Theorem acquired_token_lifetime (scope : string) (s : Machine)
        (at1 : AccessToken) (later : Machine) :
  fst (GetAccessTokenWithScope lib env scope s) = Returns (at1, None) ->
  fst (hasExpired env at1 later) = Returns true
  <-> time_Now env (ticks s) + ExpiresIn at1 * Millisecond
      < time_Now env (ticks later).
Proof.
  intros Hok.
  destruct (GetAccessTokenWithScope_success scope s at1 Hok)
    as (_ & at0 & _ & _ & _ & _ & -> & _).
  unfold hasExpired, now, Time_Before, Time_Add. run_go. cbn.
  split.
  - intros H. injection H as H. now apply Z.ltb_lt.
  - intros H. apply Z.ltb_lt in H. now rewrite H.
Qed.
End AcquisitionFacts.

Section ExchangeFacts.
Variable lib : GzipLib.
Variable env : Env.

(** X9. The token request on the wire: a POST to [Host ++ /oauth/token]
    of the form text for the scope, with the form content type and the
    Basic authorization of [ClientId:ClientSecret] in base64; it is the
    only request of the call, and [GetAccessToken] asks for the scope
    ALL. *)
Theorem token_request_on_the_wire (scope : string) (s : Machine) :
  http_NewRequest_check env "POST" (Host (self s) ++ "/oauth/token") = None ->
  GetAccessToken lib env = GetAccessTokenWithScope lib env "ALL"
  /\ exists req,
       sent (snd (GetAccessTokenWithScope lib env scope s)) = (sent s ++ [req])%list
       /\ req_Method req = "POST"
       /\ req_URL req = Host (self s) ++ "/oauth/token"
       /\ req_Body req = bytes_of ("grant_type=client_credentials&scope=" ++ scope)
       /\ Header_Get (req_Header req) "Content-Type"
          = "application/x-www-form-urlencoded"
       /\ Header_Get (req_Header req) "Authorization"
          = "Basic " ++ base64_EncodeToString
                          (bytes_of (ClientId (self s) ++ ":" ++ ClientSecret (self s))).
Proof.
  intros Hc. split; [reflexivity|].
  set (cr := token_request (self s) scope).
  set (req := wire_request (self s) cr (token_payload scope)).
  assert (Hsent : sent (snd (doRequest lib env cr (noted s scope)))
                  = (sent s ++ [req])%list).
  { rewrite doRequest_unfold.
    replace (Request (Compression (self (noted s scope)))
             && negb (skipCompression cr)) with false
      by (cbn; now rewrite andb_false_r).
    rewrite (send_request_built lib env (self s) cr _ (noted s scope) Hc).
    destruct (client_Do env (sent (noted s scope))
                (wire_request (self s) cr (payload cr)));
      [rewrite read_response_state|]; reflexivity. }
  exists req. split.
  - rewrite GetAccessTokenWithScope_unfold. fold cr.
    destruct (doRequest lib env cr (noted s scope))
      as [[[body [err|]]|why] s1]; cbn [snd] in *; try exact Hsent.
    destruct (json_Unmarshal_AccessToken env body AccessToken_zero)
      as [at' [err|]]; exact Hsent.
  - split; [reflexivity|]. split; [reflexivity|]. split; [reflexivity|].
    destruct (wire_headers_lines (self s) cr) as (Hct & _ & Hauth & _).
    split; [exact Hct|exact Hauth].
Qed.

(** X10. When the token endpoint answers with a status outside 200..299,
    the acquisition returns the zero token and the error that quotes the
    answer's body, and the client, with the token it held, is as it
    was. *)
Theorem rejected_token_request_keeps_token (scope : string) (s : Machine)
        (res : HttpResponse) (raw body : bytes) :
  GzipLaws lib ->
  http_NewRequest_check env "POST" (Host (self s) ++ "/oauth/token") = None ->
  (forall history req, client_Do env history req = inl res) ->
  decoded_as lib res raw body ->
  ~ is_2xx (StatusCode res) ->
  fst (GetAccessTokenWithScope lib env scope s)
  = Returns (AccessToken_zero, Some (Errorf_s "request Error: " body))
  /\ self (snd (GetAccessTokenWithScope lib env scope s)) = self s.
Proof.
  intros laws Hc Hdo Hdec Hbad.
  rewrite GetAccessTokenWithScope_unfold.
  destruct (doRequest_answered lib env (token_request (self s) scope)
              (noted s scope) res laws Hc Hdo) as (out & -> & _).
  rewrite (read_response_decoded lib res raw body _ Hdec).
  destruct ((http_StatusOK <=? StatusCode res)
            && (StatusCode res <? http_StatusMultipleChoices)) eqn:Ht.
  - exfalso. apply Hbad. now apply is_2xx_test.
  - split; reflexivity.
Qed.

(** X11. When the answer of the token endpoint is a success whose body
    does not decode, the acquisition returns the decoder's error wrapped
    as [unable to unmarshall body], and the client, with the token it
    held, is as it was. *)
Theorem undecodable_token_keeps_token (scope : string) (s : Machine)
        (res : HttpResponse) (raw body : bytes) (at0 : AccessToken)
        (err : error) :
  GzipLaws lib ->
  http_NewRequest_check env "POST" (Host (self s) ++ "/oauth/token") = None ->
  (forall history req, client_Do env history req = inl res) ->
  decoded_as lib res raw body ->
  is_2xx (StatusCode res) ->
  json_Unmarshal_AccessToken env body AccessToken_zero = (at0, Some err) ->
  fst (GetAccessTokenWithScope lib env scope s)
  = Returns (at0, Some (Errorf_t "unable to unmarshall body " err))
  /\ self (snd (GetAccessTokenWithScope lib env scope s)) = self s.
Proof.
  intros laws Hc Hdo Hdec H2xx Hjson.
  rewrite GetAccessTokenWithScope_unfold.
  destruct (doRequest_answered lib env (token_request (self s) scope)
              (noted s scope) res laws Hc Hdo) as (out & -> & _).
  rewrite (read_response_decoded lib res raw body _ Hdec).
  apply is_2xx_test in H2xx. rewrite H2xx, Hjson. split; reflexivity.
Qed.
End ExchangeFacts.

Lemma successful_acquisition_stores_what_it_returns_witness :
  let s := Sim.boot (with_Token Sim.dynamic_client Sim.old_token) in
  let at1 := {| Value := "tok1"; TokenType := ""; ExpiresIn := 1000;
                ExpiresAt := 1000005000; Scope := "ALL"; Jti := "" |} in
  let s' := snd (GetAccessTokenWithScope Sim.gz Sim.quiet "ALL" s) in
  fst (GetAccessTokenWithScope Sim.gz Sim.quiet "ALL" s) = Returns (at1, None)
  /\ self s' = with_Token (self s) at1
  /\ ExpiresAt at1 = Time_Add (time_Now Sim.quiet (ticks s)) (ExpiresIn at1 * Millisecond)
  /\ Z.abs (ExpiresIn at1) <= ParseDuration_overflow
  /\ ticks s' = S (ticks s)
  /\ acquired s' = (acquired s ++ ["ALL"])%list.
Proof.
  intros s at1 s'.
  assert (Hok : fst (GetAccessTokenWithScope Sim.gz Sim.quiet "ALL" s)
                = Returns (at1, None)) by (vm_compute; reflexivity).
  split; [exact Hok|].
  exact (successful_acquisition_stores_what_it_returns Sim.gz Sim.quiet "ALL"
           s at1 Hok).
Defined.

Lemma acquired_token_lifetime_witness :
  let s := Sim.boot Sim.dynamic_client in
  let at1 := {| Value := "tok1"; TokenType := ""; ExpiresIn := 1000;
                ExpiresAt := 1000005000; Scope := "ALL"; Jti := "" |} in
  fst (GetAccessTokenWithScope Sim.gz Sim.quiet "ALL" s) = Returns (at1, None)
  /\ (fst (hasExpired Sim.quiet at1 (Sim.later s 1001)) = Returns true
      <-> time_Now Sim.quiet (ticks s) + ExpiresIn at1 * Millisecond
          < time_Now Sim.quiet (ticks (Sim.later s 1001))).
Proof.
  intros s at1.
  assert (Hok : fst (GetAccessTokenWithScope Sim.gz Sim.quiet "ALL" s)
                = Returns (at1, None)) by (vm_compute; reflexivity).
  split; [exact Hok|].
  exact (acquired_token_lifetime Sim.gz Sim.quiet "ALL" s at1
           (Sim.later s 1001) Hok).
Defined.

Lemma token_request_on_the_wire_witness :
  exists req,
    sent (snd (GetAccessTokenWithScope Sim.gz Sim.quiet "ALL"
                 (Sim.boot Sim.dynamic_client))) = [req]
    /\ req_Method req = "POST"
    /\ req_URL req = "https://api.test/oauth/token"
    /\ req_Body req = bytes_of "grant_type=client_credentials&scope=ALL"
    /\ Header_Get (req_Header req) "Content-Type"
       = "application/x-www-form-urlencoded"
    /\ Header_Get (req_Header req) "Authorization" = "Basic YTpi".
Proof.
  exact (proj2 (token_request_on_the_wire Sim.gz Sim.quiet "ALL"
                  (Sim.boot Sim.dynamic_client) eq_refl)).
Defined.

Lemma rejected_token_request_keeps_token_witness :
  let s := Sim.boot (with_Token Sim.dynamic_client Sim.old_token) in
  let env := Sim.always (inl (Sim.respond 401 [] (Sim.json "{'error':'invalid_client'}"))) in
  fst (GetAccessTokenWithScope Sim.gz env "ALL" s)
  = Returns (AccessToken_zero,
             Some (Errorf_s "request Error: " (Sim.json "{'error':'invalid_client'}")))
  /\ Token (self (snd (GetAccessTokenWithScope Sim.gz env "ALL" s))) = Sim.old_token.
Proof.
  intros s env.
  destruct (rejected_token_request_keeps_token Sim.gz env "ALL" s
              (Sim.respond 401 [] (Sim.json "{'error':'invalid_client'}"))
              (Sim.json "{'error':'invalid_client'}")
              (Sim.json "{'error':'invalid_client'}") SimFacts.gz_laws)
    as (Hfst & Hself).
  - reflexivity.
  - intros history req. apply always_answers.
  - split; [reflexivity|]. right. split; [cbn; discriminate|reflexivity].
  - unfold is_2xx. cbn. lia.
  - split; [exact Hfst|]. now rewrite Hself.
Defined.

Lemma undecodable_token_keeps_token_witness :
  let s := Sim.boot (with_Token Sim.dynamic_client Sim.old_token) in
  let env := Sim.always (inl (Sim.respond 200 [] (bytes_of "<html>"))) in
  fst (GetAccessTokenWithScope Sim.gz env "ALL" s)
  = Returns (AccessToken_zero,
             Some (Errorf_t "unable to unmarshall body "
                     (Foreign "json: cannot unmarshal the input")))
  /\ Token (self (snd (GetAccessTokenWithScope Sim.gz env "ALL" s))) = Sim.old_token.
Proof.
  intros s env.
  destruct (undecodable_token_keeps_token Sim.gz env "ALL" s
              (Sim.respond 200 [] (bytes_of "<html>"))
              (bytes_of "<html>") (bytes_of "<html>") AccessToken_zero
              (Foreign "json: cannot unmarshal the input") SimFacts.gz_laws)
    as (Hfst & Hself).
  - reflexivity.
  - intros history req. apply always_answers.
  - split; [reflexivity|]. right. split; [cbn; discriminate|reflexivity].
  - unfold is_2xx. cbn. lia.
  - reflexivity.
  - split; [exact Hfst|]. now rewrite Hself.
Defined.

(** ** Authenticated calls with an acquired token *)
Section DynamicFacts.
Variable lib : GzipLib.
Variable env : Env.

Lemma finish_state {R : Type} (unmarshal : bytes -> R -> R * option error)
      (response : R) (x : outcome (bytes * option error) * Machine) :
  snd (finish unmarshal response x) = snd x.
Proof. now destruct x as [[[data [err|]]|why] s']. Qed.

(** Without a static token and with a stored token that is not past, the
    call is [doRequest] with the stored value as the bearer. *)
Lemma doRequestWithAuthentication_valid {R : Type}
      (unmarshal : bytes -> R -> R * option error)
      (cr : ClientRequest) (response : R) (s : Machine) :
  ClientToken (self s) = "" ->
  time_Now env (ticks s) <= ExpiresAt (Token (self s)) ->
  doRequestWithAuthentication lib env unmarshal cr response s
  = finish unmarshal response
      (doRequest lib env
         (with_authorization cr ("Bearer " ++ Value (Token (self s)))) (ticked s)).
Proof.
  intros Htok Hvalid.
  unfold doRequestWithAuthentication, isUsingStaticToken, hasExpired, now.
  run_go. rewrite Htok. cbn [String.eqb negb].
  unfold Time_Before.
  replace (ExpiresAt (Token (self s)) <? time_Now env (ticks s)) with false
    by (symmetry; apply Z.ltb_ge; exact Hvalid).
  change {| self := self s; ticks := S (ticks s); sent := sent s;
            acquired := acquired s |} with (ticked s).
  cbn [fst snd self ticked]. unfold finish.
  destruct (doRequest lib env _ (ticked s)) as [[[data [err|]]|why] s'];
    reflexivity.
Qed.

(** Without a static token and with a stored token that is past, the
    call starts with [GetAccessToken]. *)
Lemma doRequestWithAuthentication_expired {R : Type}
      (unmarshal : bytes -> R -> R * option error)
      (cr : ClientRequest) (response : R) (s : Machine) :
  ClientToken (self s) = "" ->
  ExpiresAt (Token (self s)) < time_Now env (ticks s) ->
  doRequestWithAuthentication lib env unmarshal cr response s
  = match GetAccessToken lib env (ticked s) with
    | (Panics why, s1) => (Panics why, s1)
    | (Returns (_, Some err), s1) => (Returns (response, Some err), s1)
    | (Returns (_, None), s1) =>
        finish unmarshal response
          (doRequest lib env
             (with_authorization cr ("Bearer " ++ Value (Token (self s1)))) s1)
    end.
Proof.
  intros Htok Hpast.
  unfold doRequestWithAuthentication, isUsingStaticToken, hasExpired, now.
  run_go. rewrite Htok. cbn [String.eqb negb].
  unfold Time_Before. apply Z.ltb_lt in Hpast. rewrite Hpast.
  change {| self := self s; ticks := S (ticks s); sent := sent s;
            acquired := acquired s |} with (ticked s).
  destruct (GetAccessToken lib env (ticked s)) as [[[at1 [err|]]|why] s1];
    try reflexivity.
  cbn [fst snd]. unfold finish.
  destruct (doRequest lib env _ s1) as [[[data [err|]]|why] s'];
    reflexivity.
Qed.

(** X12. A stored token that is not past is reused: on a client without
    a static token, a call whose clock reading is not beyond [ExpiresAt]
    acquires nothing, reads the clock once, leaves the client as it was
    and sends at most one request, which bears the stored value. *)
Theorem valid_token_is_reused {R : Type}
        (unmarshal : bytes -> R -> R * option error)
        (cr : ClientRequest) (response : R) (s : Machine) :
  ClientToken (self s) = "" ->
  time_Now env (ticks s) <= ExpiresAt (Token (self s)) ->
  let s' := snd (doRequestWithAuthentication lib env unmarshal cr response s) in
  acquired s' = acquired s /\ ticks s' = S (ticks s) /\ self s' = self s
  /\ exists new, sent s' = (sent s ++ new)%list
              /\ (List.length new <= 1)%nat
              /\ Forall (bearer (Value (Token (self s)))) new.
Proof.
  intros Htok Hvalid.
  rewrite (doRequestWithAuthentication_valid _ _ _ _ Htok Hvalid).
  cbv zeta. rewrite finish_state.
  set (cr' := with_authorization cr ("Bearer " ++ Value (Token (self s)))).
  destruct (doRequest_frame lib env cr' (ticked s))
    as (Hself & Hticks & Hacq & Hsent).
  split; [exact Hacq|]. split; [exact Hticks|]. split; [exact Hself|].
  destruct Hsent as [Hsame | (body & Hone)].
  - exists []. rewrite app_nil_r. split; [exact Hsame|].
    split; [cbn; lia|constructor].
  - exists [wire_request (self s) cr' body]. split; [exact Hone|].
    split; [cbn; lia|]. constructor; [|constructor].
    unfold bearer, wire_request. cbn [req_Header].
    now destruct (wire_headers_lines (self s) cr') as (_ & _ & -> & _).
Qed.

(** X13. When the stored token is past and the acquisition fails, the
    call returns the acquisition's error with the target as it was, and
    ends there: the request of the caller is not sent. *)
Theorem failed_acquisition_stops_the_call {R : Type}
        (unmarshal : bytes -> R -> R * option error)
        (cr : ClientRequest) (response : R) (s : Machine)
        (at1 : AccessToken) (err : error) :
  ClientToken (self s) = "" ->
  ExpiresAt (Token (self s)) < time_Now env (ticks s) ->
  fst (GetAccessToken lib env (ticked s)) = Returns (at1, Some err) ->
  doRequestWithAuthentication lib env unmarshal cr response s
  = (Returns (response, Some err), snd (GetAccessToken lib env (ticked s))).
Proof.
  intros Htok Hpast Hfail.
  rewrite (doRequestWithAuthentication_expired _ _ _ _ Htok Hpast).
  destruct (GetAccessToken lib env (ticked s)) as [[[at2 [err2|]]|why] s1];
    cbn [fst snd] in *; try discriminate.
  now injection Hfail as _ ->.
Qed.

(** X14. When the stored token is past and the acquisition succeeds, the
    request of the caller bears the value just acquired, not the stored
    one it replaced. *)
Theorem refreshed_token_is_used {R : Type}
        (unmarshal : bytes -> R -> R * option error)
        (cr : ClientRequest) (response : R) (s : Machine) (at1 : AccessToken) :
  ClientToken (self s) = "" ->
  ExpiresAt (Token (self s)) < time_Now env (ticks s) ->
  fst (GetAccessToken lib env (ticked s)) = Returns (at1, None) ->
  doRequestWithAuthentication lib env unmarshal cr response s
  = finish unmarshal response
      (doRequest lib env (with_authorization cr ("Bearer " ++ Value at1))
         (snd (GetAccessToken lib env (ticked s)))).
Proof.
  intros Htok Hpast Hok.
  rewrite (doRequestWithAuthentication_expired _ _ _ _ Htok Hpast).
  destruct (GetAccessTokenWithScope_success lib env "ALL" (ticked s) at1 Hok)
    as (_ & _ & s0 & _ & _ & _ & _ & Hs1).
  unfold GetAccessToken in *.
  destruct (GetAccessTokenWithScope lib env "ALL" (ticked s))
    as [[[at2 [err2|]]|why] s1]; cbn [fst snd] in *; try discriminate.
  injection Hok as ->. rewrite Hs1. reflexivity.
Qed.

(** X15. One authenticated call, on any client in any state: the token
    is acquired at most once (scope ALL), at most two requests are sent,
    the clock is read at most twice, and [ClientToken] is not touched.
    Nothing is retried. *)
Theorem authenticated_call_bounds {R : Type}
        (unmarshal : bytes -> R -> R * option error)
        (cr : ClientRequest) (response : R) (s : Machine) :
  let s' := snd (doRequestWithAuthentication lib env unmarshal cr response s) in
  (acquired s' = acquired s \/ acquired s' = (acquired s ++ ["ALL"])%list)
  /\ (ticks s <= ticks s' <= ticks s + 2)%nat
  /\ ClientToken (self s') = ClientToken (self s)
  /\ exists new, sent s' = (sent s ++ new)%list /\ (List.length new <= 2)%nat.
Proof.
  assert (Hone : forall cr0 s0,
            exists new, sent (snd (doRequest lib env cr0 s0)) = (sent s0 ++ new)%list
                        /\ (List.length new <= 1)%nat).
  { intros cr0 s0.
    destruct (doRequest_frame lib env cr0 s0) as (_ & _ & _ & [Hsame | (body & H1)]).
    - exists []. rewrite app_nil_r. split; [exact Hsame|cbn; lia].
    - eexists. split; [exact H1|cbn; lia]. }
  destruct (String.eqb_spec (ClientToken (self s)) "") as [Htok | Htok].
  - destruct (Z.ltb_spec (ExpiresAt (Token (self s))) (time_Now env (ticks s)))
      as [Hpast | Hvalid].
    + rewrite (doRequestWithAuthentication_expired _ _ _ _ Htok Hpast).
      unfold GetAccessToken.
      pose proof (GetAccessTokenWithScope_frame lib env "ALL" (ticked s))
        as (Hacq & Hlo & Hct).
      pose proof (GetAccessTokenWithScope_sent lib env "ALL" (ticked s))
        as (Hhi & new1 & Hsent1 & Hlen1).
      destruct (GetAccessTokenWithScope lib env "ALL" (ticked s))
        as [[[at1 [err|]]|why] s1]; cbn [snd ticked ticks acquired sent self] in *.
      * cbv zeta. cbn [snd]. split; [now right|]. split; [lia|].
        split; [exact Hct|]. exists new1. split; [exact Hsent1|lia].
      * cbv zeta. rewrite finish_state.
        set (cr' := with_authorization cr ("Bearer " ++ Value (Token (self s1)))).
        destruct (doRequest_frame lib env cr' s1) as (Hself2 & Hticks2 & Hacq2 & _).
        destruct (Hone cr' s1) as (new2 & Hsent2 & Hlen2).
        split; [right; congruence|]. split; [lia|].
        split; [now rewrite Hself2|].
        exists (new1 ++ new2)%list. split.
        -- rewrite Hsent2, Hsent1. now rewrite app_assoc.
        -- rewrite length_app. lia.
      * cbv zeta. cbn [snd]. split; [now right|]. split; [lia|].
        split; [exact Hct|]. exists new1. split; [exact Hsent1|lia].
    + rewrite (doRequestWithAuthentication_valid _ _ _ _ Htok Hvalid).
      cbv zeta. rewrite finish_state.
      set (cr' := with_authorization cr ("Bearer " ++ Value (Token (self s)))).
      destruct (doRequest_frame lib env cr' (ticked s)) as (Hself & Hticks & Hacq & _).
      destruct (Hone cr' (ticked s)) as (new & Hsent & Hlen).
      cbn [ticked ticks acquired sent self] in *.
      split; [now left|]. split; [lia|]. split; [now rewrite Hself|].
      exists new. split; [exact Hsent|lia].
  - rewrite (doRequestWithAuthentication_static lib env _ _ _ _ Htok).
    set (cr' := with_authorization cr ("Bearer " ++ ClientToken (self s))).
    fold (finish unmarshal response (doRequest lib env cr' s)).
    cbv zeta. rewrite finish_state.
    destruct (doRequest_frame lib env cr' s) as (Hself & Hticks & Hacq & _).
    destruct (Hone cr' s) as (new & Hsent & Hlen).
    split; [now left|]. split; [lia|]. split; [now rewrite Hself|].
    exists new. split; [exact Hsent|lia].
Qed.
End DynamicFacts.

Lemma valid_token_is_reused_witness :
  let s := Sim.boot (with_Token Sim.dynamic_client Sim.fresh_token) in
  let s' := snd (doRequestWithAuthentication Sim.gz Sim.quiet Sim.keep
                   Sim.api_request [] s) in
  time_Now Sim.quiet (ticks s) <= ExpiresAt (Token (self s))
  /\ acquired s' = acquired s /\ ticks s' = S (ticks s) /\ self s' = self s
  /\ exists new, sent s' = (sent s ++ new)%list
              /\ (List.length new <= 1)%nat
              /\ Forall (bearer "tok9") new.
Proof.
  intros s s'.
  assert (Hvalid : time_Now Sim.quiet (ticks s) <= ExpiresAt (Token (self s)))
    by (vm_compute; discriminate).
  split; [exact Hvalid|].
  exact (valid_token_is_reused Sim.gz Sim.quiet Sim.keep Sim.api_request [] s
           eq_refl Hvalid).
Defined.

Lemma failed_acquisition_stops_the_call_witness :
  let s := Sim.boot (with_Token Sim.dynamic_client Sim.old_token) in
  let env := Sim.always (inl (Sim.respond 500 [] (bytes_of "oops"))) in
  fst (doRequestWithAuthentication Sim.gz env Sim.keep Sim.api_request [] s)
  = Returns ([], Some (Errorf_s "request Error: " (bytes_of "oops")))
  /\ List.length (sent (snd (doRequestWithAuthentication Sim.gz env Sim.keep
                               Sim.api_request [] s))) = 1%nat.
Proof.
  intros s env.
  rewrite (failed_acquisition_stops_the_call Sim.gz env Sim.keep
             Sim.api_request [] s AccessToken_zero
             (Errorf_s "request Error: " (bytes_of "oops"))
             eq_refl eq_refl eq_refl).
  split; reflexivity.
Defined.

Lemma refreshed_token_is_used_witness :
  let s := Sim.boot (with_Token Sim.dynamic_client Sim.old_token) in
  let at1 := {| Value := "tok1"; TokenType := ""; ExpiresIn := 1000;
                ExpiresAt := 1001005000; Scope := "ALL"; Jti := "" |} in
  fst (GetAccessToken Sim.gz Sim.quiet (ticked s)) = Returns (at1, None)
  /\ doRequestWithAuthentication Sim.gz Sim.quiet Sim.keep Sim.api_request [] s
     = finish Sim.keep []
         (doRequest Sim.gz Sim.quiet (with_authorization Sim.api_request "Bearer tok1")
            (snd (GetAccessToken Sim.gz Sim.quiet (ticked s)))).
Proof.
  intros s at1.
  assert (Hok : fst (GetAccessToken Sim.gz Sim.quiet (ticked s))
                = Returns (at1, None)) by (vm_compute; reflexivity).
  split; [exact Hok|].
  exact (refreshed_token_is_used Sim.gz Sim.quiet Sim.keep Sim.api_request []
           s at1 eq_refl eq_refl Hok).
Defined.

(** ** Across calls *)
Section SequenceFacts.
Variable lib : GzipLib.
Variable env : Env.

Lemma same_configuration_refl (m : Mnubo) : same_configuration m m.
Proof. repeat split. Qed.

Lemma same_configuration_trans (m1 m2 m3 : Mnubo) :
  same_configuration m1 m2 -> same_configuration m2 m3 ->
  same_configuration m1 m3.
Proof.
  intros (A1 & A2 & A3 & A4 & A5) (B1 & B2 & B3 & B4 & B5).
  repeat split; congruence.
Qed.

Lemma GetAccessTokenWithScope_configuration (scope : string) (s : Machine) :
  same_configuration (self s)
    (self (snd (GetAccessTokenWithScope lib env scope s))).
Proof.
  rewrite GetAccessTokenWithScope_unfold.
  pose proof (doRequest_frame lib env (token_request (self s) scope)
                (noted s scope)) as (Hself & _).
  destruct (doRequest lib env (token_request (self s) scope) (noted s scope))
    as [[[body [err|]]|why] s1]; cbn [snd] in *.
  - cbn. rewrite Hself. apply same_configuration_refl.
  - destruct (json_Unmarshal_AccessToken env body AccessToken_zero)
      as [at0 [err|]]; cbn; rewrite Hself; repeat split.
  - rewrite Hself. apply same_configuration_refl.
Qed.

Lemma doRequestWithAuthentication_configuration {R : Type}
      (unmarshal : bytes -> R -> R * option error)
      (cr : ClientRequest) (response : R) (s : Machine) :
  same_configuration (self s)
    (self (snd (doRequestWithAuthentication lib env unmarshal cr response s))).
Proof.
  destruct (String.eqb_spec (ClientToken (self s)) "") as [Htok | Htok].
  - destruct (Z.ltb_spec (ExpiresAt (Token (self s))) (time_Now env (ticks s)))
      as [Hpast | Hvalid].
    + rewrite (doRequestWithAuthentication_expired lib env _ _ _ _ Htok Hpast).
      unfold GetAccessToken.
      pose proof (GetAccessTokenWithScope_configuration "ALL" (ticked s)) as Hcfg.
      destruct (GetAccessTokenWithScope lib env "ALL" (ticked s))
        as [[[at1 [err|]]|why] s1]; cbn [snd ticked self] in *; try exact Hcfg.
      rewrite finish_state.
      destruct (doRequest_frame lib env
                  (with_authorization cr ("Bearer " ++ Value (Token (self s1)))) s1)
        as (-> & _).
      exact Hcfg.
    + rewrite (doRequestWithAuthentication_valid lib env _ _ _ _ Htok Hvalid).
      rewrite finish_state.
      destruct (doRequest_frame lib env
                  (with_authorization cr ("Bearer " ++ Value (Token (self s))))
                  (ticked s)) as (-> & _).
      apply same_configuration_refl.
  - rewrite (doRequestWithAuthentication_static lib env _ _ _ _ Htok).
    fold (finish unmarshal response
            (doRequest lib env
               (with_authorization cr ("Bearer " ++ ClientToken (self s))) s)).
    rewrite finish_state.
    destruct (doRequest_frame lib env
                (with_authorization cr ("Bearer " ++ ClientToken (self s))) s)
      as (-> & _).
    apply same_configuration_refl.
Qed.

(** X16. Whatever the calls and their outcomes, a sequence of
    authenticated calls changes nothing of the client but the stored
    token: the credentials, the static token, the host and the
    compression settings are as they were, and so is the credential
    mode. *)
Theorem calls_keep_the_configuration {R : Type}
        (unmarshal : bytes -> R -> R * option error)
        (crs : list (ClientRequest * R)) (s : Machine) :
  let s' := snd (calls lib env unmarshal crs s) in
  same_configuration (self s) (self s')
  /\ isUsingStaticToken (self s') = isUsingStaticToken (self s).
Proof.
  assert (Hcfg : same_configuration (self s)
                   (self (snd (calls lib env unmarshal crs s)))).
  { revert s. induction crs as [|[cr response] rest IH]; intros s.
    - apply same_configuration_refl.
    - cbn [calls]. unfold bind.
      pose proof (doRequestWithAuthentication_configuration unmarshal cr response s)
        as H1.
      destruct (doRequestWithAuthentication lib env unmarshal cr response s)
        as [[r|why] s1]; cbn [snd] in *; [|exact H1].
      exact (same_configuration_trans _ _ _ H1 (IH s1)). }
  cbv zeta. split; [exact Hcfg|].
  destruct Hcfg as (_ & _ & Htok & _). unfold isUsingStaticToken.
  now rewrite Htok.
Qed.

(** X17. The acquired token is kept for the calls that follow: after a
    call that found the stored token past and acquired [at1], a second
    call whose clock reading is not beyond [ExpiresAt at1] acquires
    nothing more and sends its request bearing the value of [at1]. *)
Theorem token_is_cached_between_calls {R : Type}
        (unmarshal : bytes -> R -> R * option error)
        (cr1 cr2 : ClientRequest) (r1 r2 : R) (s : Machine) (at1 : AccessToken) :
  ClientToken (self s) = "" ->
  ExpiresAt (Token (self s)) < time_Now env (ticks s) ->
  fst (GetAccessToken lib env (ticked s)) = Returns (at1, None) ->
  let s1 := snd (doRequestWithAuthentication lib env unmarshal cr1 r1 s) in
  time_Now env (ticks s1) <= ExpiresAt at1 ->
  let s2 := snd (doRequestWithAuthentication lib env unmarshal cr2 r2 s1) in
  acquired s2 = (acquired s ++ ["ALL"])%list
  /\ Token (self s2) = at1
  /\ exists new, sent s2 = (sent s1 ++ new)%list
              /\ (List.length new <= 1)%nat
              /\ Forall (bearer (Value at1)) new.
Proof.
  intros Htok Hpast Hok.
  assert (Hs1 : let s1 := snd (doRequestWithAuthentication lib env unmarshal cr1 r1 s) in
                Token (self s1) = at1 /\ ClientToken (self s1) = ""
                /\ acquired s1 = (acquired s ++ ["ALL"])%list).
  { rewrite (doRequestWithAuthentication_expired lib env _ _ _ _ Htok Hpast).
    unfold GetAccessToken in *.
    destruct (GetAccessTokenWithScope_success lib env "ALL" (ticked s) at1 Hok)
      as (_ & _ & s0 & _ & _ & _ & _ & Hst).
    pose proof (GetAccessTokenWithScope_frame lib env "ALL" (ticked s))
      as (Hacq & _ & Hct).
    destruct (GetAccessTokenWithScope lib env "ALL" (ticked s))
      as [[[at2 [err2|]]|why] sa]; cbn [fst snd] in *; try discriminate.
    injection Hok as ->. cbv zeta. rewrite finish_state.
    destruct (doRequest_frame lib env
                (with_authorization cr1 ("Bearer " ++ Value (Token (self sa)))) sa)
      as (-> & _ & -> & _).
    split; [now rewrite Hst|]. split; [now rewrite Hct|exact Hacq]. }
  cbv zeta in *. destruct Hs1 as (Htoken & Htok1 & Hacq1).
  set (s1 := snd (doRequestWithAuthentication lib env unmarshal cr1 r1 s)) in *.
  intros Hvalid.
  assert (Hvalid1 : time_Now env (ticks s1) <= ExpiresAt (Token (self s1)))
    by now rewrite Htoken.
  rewrite (doRequestWithAuthentication_valid lib env _ _ _ _ Htok1 Hvalid1).
  rewrite finish_state, Htoken.
  set (cr' := with_authorization cr2 ("Bearer " ++ Value at1)).
  destruct (doRequest_frame lib env cr' (ticked s1))
    as (Hself & _ & Hacq & Hsent).
  split; [now rewrite Hacq|]. split; [now rewrite Hself|].
  destruct Hsent as [Hsame | (body & Hone)].
  - exists []. rewrite app_nil_r. split; [exact Hsame|].
    split; [cbn; lia|constructor].
  - exists [wire_request (self s1) cr' body]. split; [exact Hone|].
    split; [cbn; lia|]. constructor; [|constructor].
    unfold bearer, wire_request. cbn [req_Header].
    now destruct (wire_headers_lines (self s1) cr') as (_ & _ & -> & _).
Qed.
End SequenceFacts.

Lemma token_is_cached_between_calls_witness :
  let s := Sim.boot (with_Token Sim.dynamic_client Sim.old_token) in
  let at1 := {| Value := "tok1"; TokenType := ""; ExpiresIn := 1000;
                ExpiresAt := 1001005000; Scope := "ALL"; Jti := "" |} in
  let s1 := snd (doRequestWithAuthentication Sim.gz Sim.quiet Sim.keep
                   Sim.api_request [] s) in
  let s2 := snd (doRequestWithAuthentication Sim.gz Sim.quiet Sim.keep
                   Sim.api_request [] s1) in
  fst (GetAccessToken Sim.gz Sim.quiet (ticked s)) = Returns (at1, None)
  /\ time_Now Sim.quiet (ticks s1) <= ExpiresAt at1
  /\ acquired s2 = (acquired s ++ ["ALL"])%list
  /\ Token (self s2) = at1
  /\ exists new, sent s2 = (sent s1 ++ new)%list
              /\ (List.length new <= 1)%nat
              /\ Forall (bearer (Value at1)) new.
Proof.
  intros s at1 s1 s2.
  assert (Hok : fst (GetAccessToken Sim.gz Sim.quiet (ticked s))
                = Returns (at1, None)) by (vm_compute; reflexivity).
  assert (Hvalid : time_Now Sim.quiet (ticks s1) <= ExpiresAt at1)
    by (vm_compute; discriminate).
  split; [exact Hok|]. split; [exact Hvalid|].
  exact (token_is_cached_between_calls Sim.gz Sim.quiet Sim.keep
           Sim.api_request Sim.api_request [] [] s at1 eq_refl eq_refl Hok Hvalid).
Defined.
